(** * Apple Health data processor: extraction, aggregation and merge

    A shallow embedding of [process_health_data.py].  The XML tree is a list
    of [Record] elements in document order, Python dictionaries keyed by a
    date are finite maps, floats are IEEE binary64 values, exceptions are an
    error result, and each call of [datetime.now()] is an explicit reading of
    the wall clock. *)

From Stdlib Require Import ZArith Floats.
From stdpp Require Import gmap strings list fin_maps sorting.

Set Warnings "-inexact-float".
Open Scope Z_scope.

(** ** Exceptions *)

Inductive exn := TypeError | ValueError | AttributeError | OverflowError.

Inductive result (A : Type) :=
| Ok (a : A)
| Raise (e : exn).
Arguments Ok {A} a.
Arguments Raise {A} e.

#[global] Instance result_ret : MRet result := fun A a => Ok a.
#[global] Instance result_bind : MBind result := fun A B f c =>
  match c with
  | Ok a => f a
  | Raise e => Raise e
  end.

(** ** Floats *)

(** The float nearest to an integer ([float(n)], and the float a Python
    [int] becomes when it meets a float operand). *)
Definition Z2float (z : Z) : float :=
  SF2Prim (binary_normalize prec emax z 0 false).

(** Round half to even of the non-negative fraction [num / den]. *)
Definition round_half_even (num den : Z) : Z :=
  let q := num / den in
  let r := num mod den in
  if (2 * r <? den) then q
  else if (den <? 2 * r) then q + 1
  else if Z.even q then q else q + 1.

(** [round(x, ndigits)] on a float: the exact binary value of [x] is rounded
    half-even to [ndigits] decimals and the decimal so obtained is read back
    as the nearest float.  Zeros, infinities and NaN round to themselves, a
    float that is already an integer too.  [ndigits] is 1 or 2 at every call
    site. *)
Definition py_round (x : float) (ndigits : Z) : float :=
  match Prim2SF x with
  | S754_finite s m e =>
      if (0 <=? e) then x
      else
        let n := round_half_even (Z.pos m * 10 ^ ndigits) (2 ^ (- e)) in
        match n with
        | Z.pos p =>
            SF2Prim (SFdiv prec emax (S754_finite s p 0)
                       (S754_finite false (Z.to_pos (10 ^ ndigits)) 0))
        | _ => if s then (-0)%float else 0%float
        end
  | _ => x
  end.

(** The running total of a list of floats, added left to right from zero, as
    a chain of [+=] (or [sum]) does. *)
Definition fsum (l : list float) : float := foldl PrimFloat.add 0%float l.

(** [min(values)] and [max(values)]: the first element is replaced whenever a
    later one compares strictly below (above) it. *)
Definition fmin (x : float) (l : list float) : float :=
  foldl (fun m y => if PrimFloat.ltb y m then y else m) x l.
Definition fmax (x : float) (l : list float) : float :=
  foldl (fun m y => if PrimFloat.ltb m y then y else m) x l.

(** ** Dates and times *)

(** A calendar date is its proleptic Gregorian ordinal ([date.toordinal()],
    0001-01-01 being day 1).  A [datetime] is a naive timestamp of second
    resolution, counted in seconds since 0001-01-01 00:00:00: what
    [parse_date] returns, and what the ['%Y-%m-%d %H:%M:%S'] text of a
    session denotes.  A reading of the wall clock, [datetime.now()], carries
    microseconds and is counted in microseconds since the same instant. *)
Abbreviation date := Z (only parsing).
Abbreviation datetime := Z (only parsing).
Abbreviation clock := Z (only parsing).

Definition SECONDS_PER_DAY : Z := 86400.
Definition US_PER_SECOND : Z := 1000000.

(** [datetime.max], 9999-12-31 23:59:59.999999, in microseconds. *)
Definition MAX_DATETIME_US : Z := 3652059 * SECONDS_PER_DAY * US_PER_SECOND - 1.

(** [t.date()] *)
Definition date_of (t : datetime) : date := t / SECONDS_PER_DAY + 1.

(** [datetime(y, mo, d, h, mi, s)], after [_ymd2ord] of the datetime module. *)
Definition is_leap (y : Z) : bool :=
  (y mod 4 =? 0) && (negb (y mod 100 =? 0) || (y mod 400 =? 0)).
Definition days_before_year (y : Z) : Z :=
  let p := y - 1 in p * 365 + p / 4 - p / 100 + p / 400.
Definition days_before_month (y mo : Z) : Z :=
  nth (Z.to_nat (mo - 1)) [0; 31; 59; 90; 120; 151; 181; 212; 243; 273; 304; 334] 0
  + (if (2 <? mo) && is_leap y then 1 else 0).
Definition ymd2ord (y mo d : Z) : date :=
  days_before_year y + days_before_month y mo + d.
Definition mk_datetime (y mo d h mi s : Z) : datetime :=
  (ymd2ord y mo d - 1) * SECONDS_PER_DAY + h * 3600 + mi * 60 + s.
(** The same instant as a clock reading with [us] microseconds. *)
Definition mk_clock (y mo d h mi s us : Z) : clock :=
  mk_datetime y mo d h mi s * US_PER_SECOND + us.

(** [t.strftime('%H:%M')] *)
Definition digit (n : Z) : Ascii.ascii := Ascii.ascii_of_nat (48 + Z.to_nat n).
Definition two_digits (n : Z) : string :=
  String (digit (n / 10)) (String (digit (n mod 10)) EmptyString).
Definition strftime_HM (t : datetime) : string :=
  let secs := t mod SECONDS_PER_DAY in
  two_digits (secs / 3600) +:+ ":" +:+ two_digits (secs mod 3600 / 60).

(** [datetime.now() - timedelta(days=days_back)].  [timedelta] accepts at most
    999999999 days in magnitude and the difference must be a datetime between
    [datetime.min] and [datetime.max]; otherwise OverflowError is raised. *)
Definition cutoff_date (now : clock) (days_back : Z) : result clock :=
  if (999999999 <? Z.abs days_back) then Raise OverflowError
  else
    let c := now - days_back * SECONDS_PER_DAY * US_PER_SECOND in
    if (c <? 0) || (MAX_DATETIME_US <? c) then Raise OverflowError else Ok c.

(** [start_date < cutoff_date] *)
Definition before (start_date : datetime) (cutoff : clock) : bool :=
  start_date * US_PER_SECOND <? cutoff.

(** ** Strings *)

(** [s.replace(pat, '')] for a non-empty [pat]: every occurrence of [pat],
    scanning from the left, is dropped.  [skip] counts the characters of a
    matched occurrence still to drop. *)
Fixpoint remove_go (pat : string) (skip : nat) (s : string) : string :=
  match s with
  | EmptyString => EmptyString
  | String c s' =>
      match skip with
      | S k => remove_go pat k s'
      | O =>
          if String.prefix pat s
          then remove_go pat (Nat.pred (String.length pat)) s'
          else String c (remove_go pat 0 s')
      end
  end.
Definition str_remove (pat s : string) : string := remove_go pat 0 s.

(** ** The export: Record elements *)

(** The [value] attribute of a record, with what [float()] makes of it. *)
Inductive value_attr :=
| NoValue                          (* no such attribute: [record.get('value')] is None *)
| Text (s : string)                (* a text that [float()] rejects *)
| Numeric (s : string) (x : float) (* a text that [float()] reads as [x] *).

(** [float(record.get('value'))] *)
Definition py_float (v : value_attr) : result float :=
  match v with
  | NoValue => Raise TypeError
  | Text _ => Raise ValueError
  | Numeric _ x => Ok x
  end.

Definition attr_text (v : value_attr) : option string :=
  match v with
  | NoValue => None
  | Text s => Some s
  | Numeric s _ => Some s
  end.

(** One [Record] element.  [r_startDate] and [r_endDate] hold what
    [parse_date] returns for the attribute: the timestamp, or None when the
    attribute is missing or does not parse. *)
Record XmlRecord := {
  r_type : string;
  r_startDate : option datetime;
  r_endDate : option datetime;
  r_value : value_attr;
  r_unit : option string;
  r_sourceName : option string
}.

Definition SLEEP_ANALYSIS : string := "HKCategoryTypeIdentifierSleepAnalysis".
Definition HEART_RATE : string := "HKQuantityTypeIdentifierHeartRate".
Definition RESTING_HEART_RATE : string := "HKQuantityTypeIdentifierRestingHeartRate".
Definition HRV_SDNN : string := "HKQuantityTypeIdentifierHeartRateVariabilitySDNN".

(** [root.findall('.//Record[@type="ty"]')]: the records of that type, in
    document order. *)
Definition findall (ty : string) (root : list XmlRecord) : list XmlRecord :=
  filter (fun r => r_type r = ty) root.

(** [record.get('sourceName', 'Unknown')] *)
Definition source_of (r : XmlRecord) : string := default "Unknown" (r_sourceName r).

(** ** Sleep session extractor *)

Record SleepSession := {
  ss_date : date;
  ss_start_time : datetime;
  ss_end_time : datetime;
  ss_duration_minutes : float;
  ss_duration_hours : float;
  ss_type : string;
  ss_source : string
}.

Definition sleep_session (start_date end_date : datetime) (value source : string)
  : SleepSession :=
  let duration_minutes := (Z2float (end_date - start_date) / 60)%float in
  {| ss_date := date_of start_date;
     ss_start_time := start_date;
     ss_end_time := end_date;
     ss_duration_minutes := py_round duration_minutes 2;
     ss_duration_hours := py_round (duration_minutes / 60) 2;
     ss_type := str_remove "HKCategoryValueSleepAnalysis" value;
     ss_source := source |}.

(** The loop of [process_sleep_data] over the records found. *)
Fixpoint sleep_loop (cutoff : clock) (records : list XmlRecord)
  : result (list SleepSession) :=
  match records with
  | [] => Ok []
  | r :: rest =>
      match r_startDate r, r_endDate r with
      | Some start_date, Some end_date =>
          if before start_date cutoff then sleep_loop cutoff rest
          else
            match attr_text (r_value r) with
            | None => Raise AttributeError
            | Some value =>
                sessions ← sleep_loop cutoff rest;
                mret (sleep_session start_date end_date value (source_of r) :: sessions)
            end
      | _, _ => sleep_loop cutoff rest
      end
  end.

Definition process_sleep_data (now : clock) (days_back : Z) (root : list XmlRecord)
  : result (list SleepSession) :=
  cutoff ← cutoff_date now days_back;
  sleep_loop cutoff (findall SLEEP_ANALYSIS root).

(** ** Cardiac extractors *)

(** The three extractors build the same dictionary but for the name of the
    key that holds the rounded value (['heart_rate'], ['resting_heart_rate'],
    ['hrv_sdnn']); [m_value] stands for it. *)
Record Measurement := {
  m_date : date;
  m_datetime : datetime;
  m_value : float;
  m_unit : option string;
  m_source : string
}.

Definition measurement (start_date : datetime) (value : float) (r : XmlRecord)
  : Measurement :=
  {| m_date := date_of start_date;
     m_datetime := start_date;
     m_value := py_round value 1;
     m_unit := r_unit r;
     m_source := source_of r |}.

Fixpoint quantity_loop (cutoff : clock) (records : list XmlRecord)
  : result (list Measurement) :=
  match records with
  | [] => Ok []
  | r :: rest =>
      match r_startDate r with
      | Some start_date =>
          if before start_date cutoff then quantity_loop cutoff rest
          else
            value ← py_float (r_value r);
            measurements ← quantity_loop cutoff rest;
            mret (measurement start_date value r :: measurements)
      | None => quantity_loop cutoff rest
      end
  end.

Definition process_quantity (ty : string) (now : clock) (days_back : Z)
    (root : list XmlRecord) : result (list Measurement) :=
  cutoff ← cutoff_date now days_back;
  quantity_loop cutoff (findall ty root).

Definition process_heart_rate_data := process_quantity HEART_RATE.
Definition process_resting_heart_rate := process_quantity RESTING_HEART_RATE.
Definition process_hrv_data := process_quantity HRV_SDNN.

(** ** Daily cardiac aggregator *)

Record DailyHeart := {
  h_date : date;
  h_hr_avg : option float;
  h_hr_min : option float;
  h_hr_max : option float;
  h_hr_count : Z;
  h_resting_hr : option float;
  h_hrv : option float
}.

(** The entry the [defaultdict] creates, dated at once: every access that
    creates an entry sets its ['date'] in the same step, so the None default
    of that key is never seen and the fallback of the final sort key is never
    taken. *)
Definition default_heart (d : date) : DailyHeart :=
  {| h_date := d; h_hr_avg := None; h_hr_min := None; h_hr_max := None;
     h_hr_count := 0; h_resting_hr := None; h_hrv := None |}.

(** First loop: the ['hr_values'] list of each date, in input order. *)
Definition add_hr_value (values : gmap Z (list float)) (hr : Measurement)
  : gmap Z (list float) :=
  <[m_date hr := default [] (values !! m_date hr) ++ [m_value hr]]> values.

(** Second loop: the statistics of one date.  [sum] adds from the left. *)
Definition heart_stats (d : date) (values : list float) : DailyHeart :=
  match values with
  | [] => default_heart d
  | v :: vs =>
      {| h_date := d;
         h_hr_avg := Some (py_round (fsum values / Z2float (Z.of_nat (length values))) 1);
         h_hr_min := Some (py_round (fmin v vs) 1);
         h_hr_max := Some (py_round (fmax v vs) 1);
         h_hr_count := Z.of_nat (length values);
         h_resting_hr := None;
         h_hrv := None |}
  end.

Definition set_resting_hr (x : float) (h : DailyHeart) : DailyHeart :=
  {| h_date := h_date h; h_hr_avg := h_hr_avg h; h_hr_min := h_hr_min h;
     h_hr_max := h_hr_max h; h_hr_count := h_hr_count h;
     h_resting_hr := Some x; h_hrv := h_hrv h |}.

Definition set_hrv (x : float) (h : DailyHeart) : DailyHeart :=
  {| h_date := h_date h; h_hr_avg := h_hr_avg h; h_hr_min := h_hr_min h;
     h_hr_max := h_hr_max h; h_hr_count := h_hr_count h;
     h_resting_hr := h_resting_hr h; h_hrv := Some x |}.

(** [daily_data[date]] of the [defaultdict]. *)
Definition heart_entry (daily : gmap Z DailyHeart) (d : date) : DailyHeart :=
  default (default_heart d) (daily !! d).

Definition add_resting_hr (daily : gmap Z DailyHeart) (rhr : Measurement)
  : gmap Z DailyHeart :=
  <[m_date rhr := set_resting_hr (m_value rhr) (heart_entry daily (m_date rhr))]> daily.

Definition add_hrv (daily : gmap Z DailyHeart) (hrv : Measurement)
  : gmap Z DailyHeart :=
  <[m_date hrv := set_hrv (m_value hrv) (heart_entry daily (m_date hrv))]> daily.

Definition daily_heart_map (heart_rates resting_hrs hrvs : list Measurement)
  : gmap Z DailyHeart :=
  let values := foldl add_hr_value ∅ heart_rates in
  let stats := map_imap (fun d vs => Some (heart_stats d vs)) values in
  foldl add_hrv (foldl add_resting_hr stats resting_hrs) hrvs.

Definition heart_le (a b : DailyHeart) : Prop := h_date a <= h_date b.
#[global] Instance heart_le_dec a b : Decision (heart_le a b).
Proof. unfold heart_le. apply _. Defined.

(** [sorted(daily_data.values(), key=...)] *)
Definition aggregate_daily_heart_data (heart_rates resting_hrs hrvs : list Measurement)
  : list DailyHeart :=
  merge_sort heart_le (snd <$> map_to_list (daily_heart_map heart_rates resting_hrs hrvs)).

(** ** Nightly sleep aggregator *)

(** The six buckets of the [if]/[elif] chain. *)
Inductive stage := InBed | Asleep | Awake | Core | Deep | REM.

#[global] Instance stage_eq_dec : EqDecision stage.
Proof. solve_decision. Defined.

Definition classify (sleep_type : string) : option stage :=
  if String.eqb sleep_type "InBed" then Some InBed
  else if String.eqb sleep_type "Asleep" || String.eqb sleep_type "AsleepUnspecified"
  then Some Asleep
  else if String.eqb sleep_type "Awake" then Some Awake
  else if String.eqb sleep_type "Core" || String.eqb sleep_type "AsleepCore"
  then Some Core
  else if String.eqb sleep_type "Deep" || String.eqb sleep_type "AsleepDeep"
  then Some Deep
  else if String.eqb sleep_type "REM" || String.eqb sleep_type "AsleepREM"
  then Some REM
  else None.

(** One entry of [daily_sleep].  The totals start at the integer 0, which
    becomes the float 0.0 at the first [+=] and in [/ 60]; the two are
    identified here. *)
Record SleepAcc := {
  acc_date : date;
  total_in_bed_minutes : float;
  total_asleep_minutes : float;
  total_awake_minutes : float;
  core_sleep_minutes : float;
  deep_sleep_minutes : float;
  rem_sleep_minutes : float;
  acc_bedtime : option datetime;
  acc_wake_time : option datetime
}.

Definition default_sleep (d : date) : SleepAcc :=
  {| acc_date := d;
     total_in_bed_minutes := 0; total_asleep_minutes := 0; total_awake_minutes := 0;
     core_sleep_minutes := 0; deep_sleep_minutes := 0; rem_sleep_minutes := 0;
     acc_bedtime := None; acc_wake_time := None |}.

(** The total of one bucket. *)
Definition bucket (b : stage) (a : SleepAcc) : float :=
  match b with
  | InBed => total_in_bed_minutes a
  | Asleep => total_asleep_minutes a
  | Awake => total_awake_minutes a
  | Core => core_sleep_minutes a
  | Deep => deep_sleep_minutes a
  | REM => rem_sleep_minutes a
  end.

(** Earliest bedtime and latest wake time. *)
Definition track_times (start_time end_time : datetime) (a : SleepAcc) : SleepAcc :=
  {| acc_date := acc_date a;
     total_in_bed_minutes := total_in_bed_minutes a;
     total_asleep_minutes := total_asleep_minutes a;
     total_awake_minutes := total_awake_minutes a;
     core_sleep_minutes := core_sleep_minutes a;
     deep_sleep_minutes := deep_sleep_minutes a;
     rem_sleep_minutes := rem_sleep_minutes a;
     acc_bedtime :=
       match acc_bedtime a with
       | None => Some start_time
       | Some t => if start_time <? t then Some start_time else Some t
       end;
     acc_wake_time :=
       match acc_wake_time a with
       | None => Some end_time
       | Some t => if t <? end_time then Some end_time else Some t
       end |}.

(** [daily_sleep[date][bucket] += duration] *)
Definition add_minutes (b : stage) (duration : float) (a : SleepAcc) : SleepAcc :=
  let plus (b' : stage) : float :=
    if decide (b' = b) then (bucket b' a + duration)%float else bucket b' a in
  {| acc_date := acc_date a;
     total_in_bed_minutes := plus InBed;
     total_asleep_minutes := plus Asleep;
     total_awake_minutes := plus Awake;
     core_sleep_minutes := plus Core;
     deep_sleep_minutes := plus Deep;
     rem_sleep_minutes := plus REM;
     acc_bedtime := acc_bedtime a;
     acc_wake_time := acc_wake_time a |}.

(** Categorize sleep types: an unlisted type falls through the chain. *)
Definition categorize (sleep_type : string) (duration : float) (a : SleepAcc) : SleepAcc :=
  match classify sleep_type with
  | Some b => add_minutes b duration a
  | None => a
  end.

(** [daily_sleep[date]] of the [defaultdict], dated at once as the loop does. *)
Definition sleep_entry (daily : gmap Z SleepAcc) (d : date) : SleepAcc :=
  default (default_sleep d) (daily !! d).

(** What one session does to the entry of its date. *)
Definition sleep_update (session : SleepSession) (a : SleepAcc) : SleepAcc :=
  categorize (ss_type session) (ss_duration_minutes session)
    (track_times (ss_start_time session) (ss_end_time session) a).

(** One turn of the loop over the sessions. *)
Definition sleep_step (daily : gmap Z SleepAcc) (session : SleepSession)
  : gmap Z SleepAcc :=
  let d := ss_date session in
  <[d := sleep_update session (sleep_entry daily d)]> daily.

Record DailySleep := {
  d_date : date;
  d_bedtime : string;
  d_wake_time : string;
  d_time_in_bed_hours : float;
  d_total_sleep_hours : float;
  d_awake_minutes : float;
  d_core_sleep_hours : float;
  d_deep_sleep_hours : float;
  d_rem_sleep_hours : float
}.

(** Format the data. *)
Definition format_sleep (a : SleepAcc) : DailySleep :=
  {| d_date := acc_date a;
     d_bedtime := match acc_bedtime a with Some t => strftime_HM t | None => "" end;
     d_wake_time := match acc_wake_time a with Some t => strftime_HM t | None => "" end;
     d_time_in_bed_hours := py_round (total_in_bed_minutes a / 60) 2;
     d_total_sleep_hours :=
       py_round ((total_asleep_minutes a + core_sleep_minutes a
                  + deep_sleep_minutes a + rem_sleep_minutes a) / 60) 2;
     d_awake_minutes := py_round (total_awake_minutes a) 1;
     d_core_sleep_hours := py_round (core_sleep_minutes a / 60) 2;
     d_deep_sleep_hours := py_round (deep_sleep_minutes a / 60) 2;
     d_rem_sleep_hours := py_round (rem_sleep_minutes a / 60) 2 |}.

Definition daily_sleep_map (sleep_sessions : list SleepSession) : gmap Z SleepAcc :=
  foldl sleep_step ∅ sleep_sessions.

Definition sleep_le (a b : DailySleep) : Prop := d_date a <= d_date b.
#[global] Instance sleep_le_dec a b : Decision (sleep_le a b).
Proof. unfold sleep_le. apply _. Defined.

Definition aggregate_daily_sleep (sleep_sessions : list SleepSession) : list DailySleep :=
  merge_sort sleep_le
    (format_sleep <$> (snd <$> map_to_list (daily_sleep_map sleep_sessions))).

(** ** Table merger *)

(** What a cell of a row holds: the empty string [''], [None], a text, a
    float or an integer. *)
Inductive cell :=
| Blank
| NoneCell
| TextCell (s : string)
| FloatCell (x : float)
| IntCell (n : Z).

Definition float_cell (o : option float) : cell :=
  match o with
  | Some x => FloatCell x
  | None => NoneCell
  end.

(** The eight cells of the first [row.update], the six of the second. *)
Record SleepCells := {
  c_bedtime : cell;
  c_wake_time : cell;
  c_time_in_bed_hours : cell;
  c_total_sleep_hours : cell;
  c_awake_minutes : cell;
  c_core_sleep_hours : cell;
  c_deep_sleep_hours : cell;
  c_rem_sleep_hours : cell
}.

Record HeartCells := {
  c_hr_avg : cell;
  c_hr_min : cell;
  c_hr_max : cell;
  c_hr_measurements : cell;
  c_resting_hr : cell;
  c_hrv_sdnn : cell
}.

Record CombinedRow := {
  row_date : date;
  row_sleep : SleepCells;
  row_heart : HeartCells
}.

Definition blank_sleep : SleepCells :=
  {| c_bedtime := Blank; c_wake_time := Blank; c_time_in_bed_hours := Blank;
     c_total_sleep_hours := Blank; c_awake_minutes := Blank;
     c_core_sleep_hours := Blank; c_deep_sleep_hours := Blank;
     c_rem_sleep_hours := Blank |}.

Definition blank_heart : HeartCells :=
  {| c_hr_avg := Blank; c_hr_min := Blank; c_hr_max := Blank;
     c_hr_measurements := Blank; c_resting_hr := Blank; c_hrv_sdnn := Blank |}.

Definition sleep_cells (s : DailySleep) : SleepCells :=
  {| c_bedtime := TextCell (d_bedtime s);
     c_wake_time := TextCell (d_wake_time s);
     c_time_in_bed_hours := FloatCell (d_time_in_bed_hours s);
     c_total_sleep_hours := FloatCell (d_total_sleep_hours s);
     c_awake_minutes := FloatCell (d_awake_minutes s);
     c_core_sleep_hours := FloatCell (d_core_sleep_hours s);
     c_deep_sleep_hours := FloatCell (d_deep_sleep_hours s);
     c_rem_sleep_hours := FloatCell (d_rem_sleep_hours s) |}.

Definition heart_cells (h : DailyHeart) : HeartCells :=
  {| c_hr_avg := float_cell (h_hr_avg h);
     c_hr_min := float_cell (h_hr_min h);
     c_hr_max := float_cell (h_hr_max h);
     c_hr_measurements := IntCell (h_hr_count h);
     c_resting_hr := float_cell (h_resting_hr h);
     c_hrv_sdnn := float_cell (h_hrv h) |}.

(** [{x['date']: x for x in data}]: a later entry of a date replaces an
    earlier one. *)
Definition by_date {A} (key : A → date) (data : list A) : gmap Z A :=
  foldl (fun m x => <[key x := x]> m) ∅ data.

Definition combined_row (sleep_by_date : gmap Z DailySleep)
    (heart_by_date : gmap Z DailyHeart) (d : date) : CombinedRow :=
  {| row_date := d;
     row_sleep := from_option sleep_cells blank_sleep (sleep_by_date !! d);
     row_heart := from_option heart_cells blank_heart (heart_by_date !! d) |}.

(** The rows [generate_spreadsheet] hands to the CSV writer. *)
Definition generate_spreadsheet (sleep_data : list DailySleep)
    (heart_data : list DailyHeart) : list CombinedRow :=
  let sleep_by_date := by_date d_date sleep_data in
  let heart_by_date := by_date h_date heart_data in
  let all_dates : gset Z := dom sleep_by_date ∪ dom heart_by_date in
  combined_row sleep_by_date heart_by_date <$> merge_sort Z.le (elements all_dates).

(** ** The run *)

(** The wall clock as each extractor reads it, in the order of the calls. *)
Record Clock := {
  now_sleep : clock;
  now_heart_rate : clock;
  now_resting : clock;
  now_hrv : clock
}.

(** The [try] block of [main], up to the rows written: an exception of an
    extractor ends the run before anything is written. *)
Definition main (clk : Clock) (days : Z) (root : list XmlRecord)
  : result (list CombinedRow) :=
  sleep_sessions ← process_sleep_data (now_sleep clk) days root;
  heart_rates ← process_heart_rate_data (now_heart_rate clk) days root;
  resting_hrs ← process_resting_heart_rate (now_resting clk) days root;
  hrvs ← process_hrv_data (now_hrv clk) days root;
  let daily_sleep := aggregate_daily_sleep sleep_sessions in
  let daily_heart := aggregate_daily_heart_data heart_rates resting_hrs hrvs in
  mret (generate_spreadsheet daily_sleep daily_heart).

(** A clock that shows the same instant at every reading. *)
Definition frozen (now : clock) : Clock :=
  {| now_sleep := now; now_heart_rate := now; now_resting := now; now_hrv := now |}.

(** ** Reading the export *)

(** [sep in s] *)
Fixpoint contains (sep s : string) : bool :=
  String.prefix sep s ||
  match s with
  | EmptyString => false
  | String _ s' => contains sep s'
  end.

(** [s.split(sep)[0]] for a non-empty [sep]: what stands before the first
    occurrence of [sep], the whole of [s] when there is none. *)
Fixpoint before_first (sep s : string) : string :=
  match s with
  | EmptyString => EmptyString
  | String c s' =>
      if String.prefix sep s then EmptyString else String c (before_first sep s')
  end.

(** [parse_date]: the offset is cut off and the rest is handed to
    [datetime.strptime(_, '%Y-%m-%d %H:%M:%S')], here [strptime], which gives
    None where the library raises; the bare [except] turns every exception
    into None, also the one of a missing attribute. *)
Definition parse_date (strptime : string → option datetime)
    (date_string : option string) : option datetime :=
  match date_string with
  | None => None
  | Some s => strptime (before_first " +" (before_first " -" s))
  end.

(** [s.endswith(suffix)] *)
Definition endswith (suffix s : string) : bool :=
  (String.length suffix <=? String.length s)%nat &&
  String.eqb
    (String.substring (String.length s - String.length suffix) (String.length suffix) s)
    suffix.

(** [extract_export_xml], on the names of the archive in archive order: the
    path it extracts and returns. *)
Definition extract_export_xml (namelist : list string) : result string :=
  match filter (fun f => endswith "export.xml" f = true) namelist with
  | [] => Raise ValueError
  | xml_path :: _ => Ok xml_path
  end.

(** * Notions used to state the properties *)

(** The three aggregation loops have one shape: the entry of the key of [x]
    is created on first access and updated with [x]. *)
Section GroupStep.
Context {A B : Type} (key : A → Z) (init : Z → B) (upd : A → B → B).

Definition group_step (m : gmap Z B) (x : A) : gmap Z B :=
  <[key x := upd x (default (init (key x)) (m !! key x))]> m.

(** The elements of one key, in input order. *)
Definition group_of (d : Z) (l : list A) : list A :=
  filter (fun x => key x = d) l.
End GroupStep.

(** The sessions of one night, in input order. *)
Definition night (d : date) (sessions : list SleepSession) : list SleepSession :=
  group_of ss_date d sessions.

(** The sessions of one stage bucket. *)
Definition of_stage (b : stage) (g : list SleepSession) : list SleepSession :=
  filter (fun s => classify (ss_type s) = Some b) g.

(** The minutes of one stage bucket: the durations of its sessions, added in
    input order. *)
Definition stage_minutes (b : stage) (g : list SleepSession) : float :=
  fsum (ss_duration_minutes <$> of_stage b g).

(** The entry one night's sessions build. *)
Definition night_entry (d : date) (g : list SleepSession) : SleepAcc :=
  foldl (fun a s => sleep_update s a) (default_sleep d) g.

(** The earliest (latest) of the timestamps seen so far. *)
Definition earliest (o : option datetime) (t : datetime) : option datetime :=
  Some (match o with None => t | Some u => Z.min u t end).
Definition latest (o : option datetime) (t : datetime) : option datetime :=
  Some (match o with None => t | Some u => Z.max u t end).

(** The sessions whose type the [if]/[elif] chain lists. *)
Definition recognized (g : list SleepSession) : list SleepSession :=
  filter (fun s => is_Some (classify (ss_type s))) g.

(** The six stage fields of a summary. *)
Definition stage_fields (s : DailySleep) : list float :=
  [d_time_in_bed_hours s; d_total_sleep_hours s; d_awake_minutes s;
   d_core_sleep_hours s; d_deep_sleep_hours s; d_rem_sleep_hours s].

(** What the filter of the sleep extractor lets through: both timestamps
    parse and the start is not before the cutoff. *)
Definition sleep_kept (cutoff : clock) (r : XmlRecord) : option (datetime * datetime) :=
  match r_startDate r, r_endDate r with
  | Some s, Some e => if before s cutoff then None else Some (s, e)
  | _, _ => None
  end.

(** What the filter of a cardiac extractor lets through. *)
Definition quantity_kept (cutoff : clock) (r : XmlRecord) : option datetime :=
  match r_startDate r with
  | Some s => if before s cutoff then None else Some s
  | None => None
  end.

(** A session comes from a record. *)
Definition session_of (r : XmlRecord) (x : SleepSession) : Prop :=
  ∃ s e v, r_startDate r = Some s ∧ r_endDate r = Some e ∧
           attr_text (r_value r) = Some v ∧ x = sleep_session s e v (source_of r).

(** A measurement comes from a record. *)
Definition measurement_of (r : XmlRecord) (m : Measurement) : Prop :=
  ∃ s x, r_startDate r = Some s ∧ py_float (r_value r) = Ok x ∧ m = measurement s x r.

(** What one resting heart rate (one HRV) measurement does to the entry of
    its date. *)
Definition resting_update (m : Measurement) (h : DailyHeart) : DailyHeart :=
  set_resting_hr (m_value m) h.
Definition hrv_update (m : Measurement) (h : DailyHeart) : DailyHeart :=
  set_hrv (m_value m) h.

(** The entries after the statistics, before the last two loops. *)
Definition heart_stats_map (heart_rates : list Measurement) : gmap Z DailyHeart :=
  map_imap (fun d vs => Some (heart_stats d vs)) (foldl add_hr_value ∅ heart_rates).

(** Every entry of a dictionary carries the date it is filed under. *)
Definition dated (daily : gmap Z DailyHeart) : Prop :=
  ∀ d h, daily !! d = Some h → h_date h = d.

(** ** Inputs of the examples *)

Definition sleep_record (start_date end_date : option datetime) (value : value_attr)
  : XmlRecord :=
  {| r_type := SLEEP_ANALYSIS; r_startDate := start_date; r_endDate := end_date;
     r_value := value; r_unit := None; r_sourceName := Some "Watch" |}.

Definition quantity_record (ty : string) (start_date : option datetime)
    (value : value_attr) : XmlRecord :=
  {| r_type := ty; r_startDate := start_date; r_endDate := start_date;
     r_value := value; r_unit := Some "count/min"; r_sourceName := Some "Watch" |}.

(** Two resting heart rates of 2024-01-03, 55 and then 58. *)
Definition resting_55 : Measurement :=
  measurement (mk_datetime 2024 1 3 7 0 0) 55
    (quantity_record RESTING_HEART_RATE (Some (mk_datetime 2024 1 3 7 0 0)) (Numeric "55" 55)).
Definition resting_58 : Measurement :=
  measurement (mk_datetime 2024 1 3 21 0 0) 58
    (quantity_record RESTING_HEART_RATE (Some (mk_datetime 2024 1 3 21 0 0)) (Numeric "58" 58)).

(** One night of 2024-01-05 with a session of every stage. *)
Definition full_night : list SleepSession :=
  [ sleep_session (mk_datetime 2024 1 5 22 0 0) (mk_datetime 2024 1 5 22 30 0)
      "HKCategoryValueSleepAnalysisInBed" "Watch";
    sleep_session (mk_datetime 2024 1 5 22 30 0) (mk_datetime 2024 1 5 23 0 0)
      "HKCategoryValueSleepAnalysisAsleepUnspecified" "Watch";
    sleep_session (mk_datetime 2024 1 5 23 0 0) (mk_datetime 2024 1 5 23 10 0)
      "HKCategoryValueSleepAnalysisAwake" "Watch";
    sleep_session (mk_datetime 2024 1 5 23 10 0) (mk_datetime 2024 1 6 0 40 0)
      "HKCategoryValueSleepAnalysisAsleepCore" "Watch";
    sleep_session (mk_datetime 2024 1 5 23 50 0) (mk_datetime 2024 1 6 0 50 0)
      "HKCategoryValueSleepAnalysisAsleepDeep" "Watch";
    sleep_session (mk_datetime 2024 1 5 23 55 0) (mk_datetime 2024 1 6 0 40 0)
      "HKCategoryValueSleepAnalysisAsleepREM" "Watch" ].

Definition full_night_summary : DailySleep :=
  {| d_date := ymd2ord 2024 1 5; d_bedtime := "22:00"; d_wake_time := "00:50";
     d_time_in_bed_hours := 0.5; d_total_sleep_hours := 3.75; d_awake_minutes := 10;
     d_core_sleep_hours := 1.5; d_deep_sleep_hours := 1; d_rem_sleep_hours := 0.75 |}.

(** [duration_minutes] before any rounding. *)
Definition raw_minutes (start_date end_date : datetime) : float :=
  (Z2float (end_date - start_date) / 60)%float.

(** The scenario of two sessions: core sleep from 23:00 to 00:30 and deep sleep
    from 00:30 to 06:30. *)
Definition scenario_records : list XmlRecord :=
  [ sleep_record (Some (mk_datetime 2024 1 1 23 0 0)) (Some (mk_datetime 2024 1 2 0 30 0))
      (Text "HKCategoryValueSleepAnalysisCore");
    sleep_record (Some (mk_datetime 2024 1 2 0 30 0)) (Some (mk_datetime 2024 1 2 6 30 0))
      (Text "HKCategoryValueSleepAnalysisDeep") ].

Definition scenario_now : clock := mk_clock 2024 1 10 8 0 0 250000.

Definition scenario_sessions : list SleepSession :=
  [ sleep_session (mk_datetime 2024 1 1 23 0 0) (mk_datetime 2024 1 2 0 30 0)
      "HKCategoryValueSleepAnalysisCore" "Watch";
    sleep_session (mk_datetime 2024 1 2 0 30 0) (mk_datetime 2024 1 2 6 30 0)
      "HKCategoryValueSleepAnalysisDeep" "Watch" ].

Definition scenario_first_night : DailySleep :=
  {| d_date := ymd2ord 2024 1 1; d_bedtime := "23:00"; d_wake_time := "00:30";
     d_time_in_bed_hours := 0; d_total_sleep_hours := 1.5; d_awake_minutes := 0;
     d_core_sleep_hours := 1.5; d_deep_sleep_hours := 0; d_rem_sleep_hours := 0 |}.

Definition scenario_second_night : DailySleep :=
  {| d_date := ymd2ord 2024 1 2; d_bedtime := "00:30"; d_wake_time := "06:30";
     d_time_in_bed_hours := 0; d_total_sleep_hours := 6; d_awake_minutes := 0;
     d_core_sleep_hours := 0; d_deep_sleep_hours := 6; d_rem_sleep_hours := 0 |}.

(** A session filed under another date than the one its start gives. *)
Definition filed_under (d : date) (x : SleepSession) : SleepSession :=
  {| ss_date := d; ss_start_time := ss_start_time x; ss_end_time := ss_end_time x;
     ss_duration_minutes := ss_duration_minutes x;
     ss_duration_hours := ss_duration_hours x;
     ss_type := ss_type x; ss_source := ss_source x |}.

(** The summary the scenario would have if both sessions were of one night. *)
Definition scenario_one_night : DailySleep :=
  {| d_date := ymd2ord 2024 1 1; d_bedtime := "23:00"; d_wake_time := "06:30";
     d_time_in_bed_hours := 0; d_total_sleep_hours := 7.5; d_awake_minutes := 0;
     d_core_sleep_hours := 1.5; d_deep_sleep_hours := 6; d_rem_sleep_hours := 0 |}.

(** A nap: a stage label the chain does not list. *)
Definition nap_record : XmlRecord :=
  sleep_record (Some (mk_datetime 2024 1 5 21 0 0)) (Some (mk_datetime 2024 1 5 21 20 0))
    (Text "HKCategoryValueSleepAnalysisNap").

Definition nap_session : SleepSession :=
  sleep_session (mk_datetime 2024 1 5 21 0 0) (mk_datetime 2024 1 5 21 20 0)
    "HKCategoryValueSleepAnalysisNap" "Watch".

Definition nap_now : clock := mk_clock 2024 1 10 8 0 0 250000.

(** Eight seconds awake, one record a second. *)
Definition awake_second (k : Z) : XmlRecord :=
  sleep_record (Some (mk_datetime 2024 1 5 23 0 k)) (Some (mk_datetime 2024 1 5 23 0 (k + 1)))
    (Text "HKCategoryValueSleepAnalysisAwake").

Definition eight_awake_seconds : list XmlRecord :=
  awake_second <$> [0; 1; 2; 3; 4; 5; 6; 7].

Definition awake_second_session (k : Z) : SleepSession :=
  sleep_session (mk_datetime 2024 1 5 23 0 k) (mk_datetime 2024 1 5 23 0 (k + 1))
    "HKCategoryValueSleepAnalysisAwake" "Watch".

Definition eight_awake_sessions : list SleepSession :=
  awake_second_session <$> [0; 1; 2; 3; 4; 5; 6; 7].

Definition eight_awake_summary : DailySleep :=
  {| d_date := ymd2ord 2024 1 5; d_bedtime := "23:00"; d_wake_time := "23:00";
     d_time_in_bed_hours := 0; d_total_sleep_hours := 0; d_awake_minutes := 0.2;
     d_core_sleep_hours := 0; d_deep_sleep_hours := 0; d_rem_sleep_hours := 0 |}.

(** A sleep record inside the window whose end does not parse. *)
Definition endless_record : XmlRecord :=
  sleep_record (Some (mk_datetime 2024 1 5 23 0 0)) None
    (Text "HKCategoryValueSleepAnalysisCore").

(** Two heart rates of 2024-01-05; the value of the second is no number. *)
Definition good_heart_rate : XmlRecord :=
  quantity_record HEART_RATE (Some (mk_datetime 2024 1 5 9 0 0)) (Numeric "61" 61).
Definition corrupt_heart_rate : XmlRecord :=
  quantity_record HEART_RATE (Some (mk_datetime 2024 1 5 9 5 0)) (Text "n/a").

Definition good_heart_rate_row : CombinedRow :=
  {| row_date := ymd2ord 2024 1 5;
     row_sleep := blank_sleep;
     row_heart :=
       {| c_hr_avg := FloatCell 61; c_hr_min := FloatCell 61; c_hr_max := FloatCell 61;
          c_hr_measurements := IntCell 1; c_resting_hr := NoneCell;
          c_hrv_sdnn := NoneCell |} |}.

(** The start of a record is not before the cutoff of [days] days back from
    [now]. *)
Definition in_window (now : clock) (days : Z) (s : datetime) : Prop :=
  now - days * SECONDS_PER_DAY * US_PER_SECOND <= s * US_PER_SECOND.

(** The reading of the clock the extractor of a cardiac record type works
    with. *)
Definition reading (clk : Clock) (ty : string) : option clock :=
  if decide (ty = HEART_RATE) then Some (now_heart_rate clk)
  else if decide (ty = RESTING_HEART_RATE) then Some (now_resting clk)
  else if decide (ty = HRV_SDNN) then Some (now_hrv clk)
  else None.

(** Two readings of the clock lead the filter of an extractor to the same
    decisions on the records of its type. *)
Definition same_decisions (ty : string) (days : Z) (root : list XmlRecord)
    (now now' : clock) : Prop :=
  ∃ c c', cutoff_date now days = Ok c ∧ cutoff_date now' days = Ok c' ∧
    ∀ r s, r ∈ findall ty root → r_startDate r = Some s → before s c = before s c'.

(** A heart rate taken thirty days, to the microsecond, before the run starts,
    and a night inside the window. *)
Definition boundary_now : clock := mk_clock 2024 2 4 8 0 0 0.
Definition boundary_night : XmlRecord :=
  sleep_record (Some (mk_datetime 2024 1 20 23 0 0)) (Some (mk_datetime 2024 1 21 0 30 0))
    (Text "HKCategoryValueSleepAnalysisCore").
Definition boundary_heart_rate : XmlRecord :=
  quantity_record HEART_RATE (Some (mk_datetime 2024 1 5 8 0 0)) (Numeric "61" 61).
Definition boundary_records : list XmlRecord := [boundary_night; boundary_heart_rate].

(** The clock of a run that starts at [now] and reads it a microsecond later
    at each further call. *)
Definition ticking (now : clock) : Clock :=
  {| now_sleep := now; now_heart_rate := now + 1; now_resting := now + 2;
     now_hrv := now + 3 |}.

Definition missing_hrv : XmlRecord :=
  quantity_record HRV_SDNN (Some (mk_datetime 2024 1 5 9 5 0)) NoValue.

(** The same corrupt heart rate, taken before the window. *)
Definition old_corrupt_heart_rate : XmlRecord :=
  quantity_record HEART_RATE (Some (mk_datetime 2023 1 5 9 5 0)) (Text "n/a").

Definition boundary_sleep_row : CombinedRow :=
  {| row_date := ymd2ord 2024 1 20;
     row_sleep :=
       {| c_bedtime := TextCell "23:00"; c_wake_time := TextCell "00:30";
          c_time_in_bed_hours := FloatCell 0; c_total_sleep_hours := FloatCell 1.5;
          c_awake_minutes := FloatCell 0; c_core_sleep_hours := FloatCell 1.5;
          c_deep_sleep_hours := FloatCell 0; c_rem_sleep_hours := FloatCell 0 |};
     row_heart := blank_heart |}.

(** The reading of the clock the extractor of a record type works with. *)
Definition window_reading (clk : Clock) (ty : string) : option clock :=
  if decide (ty = SLEEP_ANALYSIS) then Some (now_sleep clk) else reading clk ty.

(** ** Notions used by the further properties *)

(** The heart rate values of one date, in input order. *)
Definition hr_values_of (d : date) (heart_rates : list Measurement) : list float :=
  m_value <$> group_of m_date d heart_rates.

(** Heart rates 60, 70 and 80 of 2024-01-03. *)
Definition heart_rate_at (mi : Z) (x : float) : Measurement :=
  measurement (mk_datetime 2024 1 3 9 mi 0) x
    (quantity_record HEART_RATE (Some (mk_datetime 2024 1 3 9 mi 0)) (Numeric "" x)).
Definition three_heart_rates : list Measurement :=
  [heart_rate_at 0 60; heart_rate_at 5 70; heart_rate_at 10 80].
Definition three_heart_rates_summary : DailyHeart :=
  {| h_date := ymd2ord 2024 1 3; h_hr_avg := Some 70%float; h_hr_min := Some 60%float;
     h_hr_max := Some 80%float; h_hr_count := 3; h_resting_hr := None; h_hrv := None |}.

(** The summary of one date, from the measurements of that date. *)
Definition heart_summary_of (d : date) (heart_rates resting_hrs hrvs : list Measurement)
  : DailyHeart :=
  foldl (fun h m => hrv_update m h)
    (foldl (fun h m => resting_update m h)
       (heart_stats d (hr_values_of d heart_rates))
       (group_of m_date d resting_hrs))
    (group_of m_date d hrvs).

(** The four fields of the heart rate statistics. *)
Definition hr_fields (h : DailyHeart) : option float * option float * option float * Z :=
  (h_hr_avg h, h_hr_min h, h_hr_max h, h_hr_count h).

(** Two summaries of 2024-01-05 in one list, and the summary of a day. *)
Definition early_summary : DailySleep :=
  {| d_date := ymd2ord 2024 1 5; d_bedtime := "21:00"; d_wake_time := "05:00";
     d_time_in_bed_hours := 8; d_total_sleep_hours := 7; d_awake_minutes := 30;
     d_core_sleep_hours := 4; d_deep_sleep_hours := 2; d_rem_sleep_hours := 1 |}.

(** A record the filter of its extractor keeps: a record of one of the four
    types whose start parses (for a sleep record the end too) and is inside
    the window the extractor computes from its reading of the clock. *)
Definition kept_in_window (clk : Clock) (days : Z) (r : XmlRecord) (s : datetime) : Prop :=
  r_startDate r = Some s ∧
  (∃ now, window_reading clk (r_type r) = Some now ∧ in_window now days s) ∧
  (r_type r = SLEEP_ANALYSIS → is_Some (r_endDate r)).



(** A reader that knows one text. *)
Definition strptime_of_one (s : string) : option datetime :=
  if String.eqb s "2024-12-21 23:45:30" then Some (mk_datetime 2024 12 21 23 45 30)
  else None.

(** * Properties *)

(** ** Dictionaries filled entry by entry *)

Section GroupFold.
Context {A B : Type} (key : A → Z) (init : Z → B) (upd : A → B → B).

Lemma group_fold_lookup (l : list A) (m : gmap Z B) (d : Z) :
  foldl (group_step key init upd) m l !! d =
    match group_of key d l with
    | [] => m !! d
    | g => Some (foldl (fun b x => upd x b) (default (init d) (m !! d)) g)
    end.
Proof.
  revert m. induction l as [|x l IH]; intros m; simpl; [done|].
  rewrite IH. unfold group_of, group_step.
  destruct (decide (key x = d)) as [<-|Hne].
  - rewrite filter_cons_True by done. rewrite lookup_insert_eq. simpl.
    by destruct (filter _ l).
  - rewrite filter_cons_False by done. by rewrite lookup_insert_ne.
Qed.

Lemma group_fold_empty (l : list A) (d : Z) :
  foldl (group_step key init upd) ∅ l !! d =
    match group_of key d l with
    | [] => None
    | g => Some (foldl (fun b x => upd x b) (init d) g)
    end.
Proof. rewrite group_fold_lookup. by rewrite lookup_empty. Qed.
End GroupFold.

Section GroupOf.
Context {A : Type} (key : A → Z).

Lemma group_of_elem (d : Z) (l : list A) (x : A) :
  x ∈ group_of key d l ↔ x ∈ l ∧ key x = d.
Proof. unfold group_of. rewrite list_elem_of_filter. tauto. Qed.

Lemma group_of_nil (d : Z) (l : list A) :
  group_of key d l = [] ↔ ∀ x, x ∈ l → key x ≠ d.
Proof.
  split.
  - intros Hnil x Hx Hk.
    assert (Hin : x ∈ group_of key d l) by (by apply group_of_elem).
    rewrite Hnil in Hin. by apply not_elem_of_nil in Hin.
  - intros Hall. destruct (group_of key d l) as [|y g] eqn:E; [done|].
    assert (Hy : y ∈ group_of key d l) by (rewrite E; left).
    apply group_of_elem in Hy as [Hy Hk]. by destruct (Hall y Hy).
Qed.
End GroupOf.

(** ** Nightly sleep aggregator *)

Lemma sleep_step_group :
  sleep_step = group_step ss_date default_sleep sleep_update.
Proof. reflexivity. Qed.

Lemma bucket_track_times b s e a : bucket b (track_times s e a) = bucket b a.
Proof. by destruct b. Qed.

Lemma bucket_add_minutes b b' x a :
  bucket b (add_minutes b' x a) =
    if decide (b = b') then (bucket b a + x)%float else bucket b a.
Proof. by destruct b, b'. Qed.

Lemma bucket_sleep_update b s a :
  bucket b (sleep_update s a) =
    if decide (classify (ss_type s) = Some b)
    then (bucket b a + ss_duration_minutes s)%float else bucket b a.
Proof.
  unfold sleep_update, categorize.
  destruct (classify (ss_type s)) as [b'|].
  - rewrite bucket_add_minutes, bucket_track_times.
    destruct (decide (b = b')) as [->|Hne].
    + by rewrite decide_True.
    + rewrite decide_False; [done | congruence].
  - by rewrite bucket_track_times, decide_False.
Qed.

Lemma bucket_fold b g a :
  bucket b (foldl (fun a s => sleep_update s a) a g) =
    foldl PrimFloat.add (bucket b a) (ss_duration_minutes <$> of_stage b g).
Proof.
  revert a. induction g as [|s g IH]; intros a; simpl; [done|].
  rewrite IH, bucket_sleep_update. unfold of_stage.
  destruct (decide (classify (ss_type s) = Some b)) as [Hc|Hc].
  - by rewrite filter_cons_True.
  - by rewrite filter_cons_False.
Qed.

Lemma bucket_night_entry b d g : bucket b (night_entry d g) = stage_minutes b g.
Proof. unfold night_entry. rewrite bucket_fold. by destruct b. Qed.

Lemma acc_date_sleep_update s a : acc_date (sleep_update s a) = acc_date a.
Proof. unfold sleep_update, categorize. by destruct (classify _). Qed.

Lemma acc_date_fold g a :
  acc_date (foldl (fun a s => sleep_update s a) a g) = acc_date a.
Proof.
  revert a. induction g as [|s g IH]; intros a; simpl; [done|].
  by rewrite IH, acc_date_sleep_update.
Qed.

Lemma acc_date_night_entry d g : acc_date (night_entry d g) = d.
Proof. unfold night_entry. by rewrite acc_date_fold. Qed.

Lemma acc_bedtime_sleep_update s a :
  acc_bedtime (sleep_update s a) = earliest (acc_bedtime a) (ss_start_time s).
Proof.
  unfold sleep_update, categorize, earliest.
  destruct (classify _); simpl; destruct (acc_bedtime a) as [t|]; try done;
    destruct (Z.ltb_spec (ss_start_time s) t); f_equal; lia.
Qed.

Lemma acc_wake_time_sleep_update s a :
  acc_wake_time (sleep_update s a) = latest (acc_wake_time a) (ss_end_time s).
Proof.
  unfold sleep_update, categorize, latest.
  destruct (classify _); simpl; destruct (acc_wake_time a) as [t|]; try done;
    destruct (Z.ltb_spec t (ss_end_time s)); f_equal; lia.
Qed.

Lemma acc_bedtime_fold g a :
  acc_bedtime (foldl (fun a s => sleep_update s a) a g) =
    foldl earliest (acc_bedtime a) (ss_start_time <$> g).
Proof.
  revert a. induction g as [|s g IH]; intros a; simpl; [done|].
  by rewrite IH, acc_bedtime_sleep_update.
Qed.

Lemma acc_wake_time_fold g a :
  acc_wake_time (foldl (fun a s => sleep_update s a) a g) =
    foldl latest (acc_wake_time a) (ss_end_time <$> g).
Proof.
  revert a. induction g as [|s g IH]; intros a; simpl; [done|].
  by rewrite IH, acc_wake_time_sleep_update.
Qed.

(** The earliest of a non-empty list of timestamps is one of them and is
    below all of them. *)
Lemma earliest_fold_min (ts : list Z) (o : option Z) (t : Z) :
  foldl earliest o ts = Some t →
  (Some t = o ∨ t ∈ ts) ∧ (∀ u, u ∈ ts → t <= u) ∧ (∀ u, o = Some u → t <= u).
Proof.
  revert o. induction ts as [|x ts IH]; intros o; simpl.
  - intros ->. split; [by left|]. split.
    + intros u Hu. by apply not_elem_of_nil in Hu.
    + intros u [= ->]. lia.
  - intros H. apply IH in H as (Hin & Hle & Ho).
    assert (Hx : t <= x).
    { apply (Z.le_trans _ (match o with None => x | Some u => Z.min u x end));
        [by apply Ho | destruct o; lia]. }
    split; [|split].
    + destruct Hin as [Heq|Hin]; [|right; by right].
      unfold earliest in Heq. destruct o as [u|].
      * injection Heq as ->. destruct (Z.min_spec u x) as [[_ ->]|[_ ->]];
          [by left | right; left].
      * injection Heq as ->. right; left.
    + intros u Hu. apply elem_of_cons in Hu as [->|Hu]; [done | by apply Hle].
    + intros u ->. specialize (Ho _ eq_refl). lia.
Qed.

Lemma latest_fold_max (ts : list Z) (o : option Z) (t : Z) :
  foldl latest o ts = Some t →
  (Some t = o ∨ t ∈ ts) ∧ (∀ u, u ∈ ts → u <= t) ∧ (∀ u, o = Some u → u <= t).
Proof.
  revert o. induction ts as [|x ts IH]; intros o; simpl.
  - intros ->. split; [by left|]. split.
    + intros u Hu. by apply not_elem_of_nil in Hu.
    + intros u [= ->]. lia.
  - intros H. apply IH in H as (Hin & Hle & Ho).
    assert (Hx : x <= t).
    { apply (Z.le_trans _ (match o with None => x | Some u => Z.max u x end));
        [destruct o; lia | by apply Ho]. }
    split; [|split].
    + destruct Hin as [Heq|Hin]; [|right; by right].
      unfold latest in Heq. destruct o as [u|].
      * injection Heq as ->. destruct (Z.max_spec u x) as [[_ ->]|[_ ->]];
          [right; left | by left].
      * injection Heq as ->. right; left.
    + intros u Hu. apply elem_of_cons in Hu as [->|Hu]; [done | by apply Hle].
    + intros u ->. specialize (Ho _ eq_refl). lia.
Qed.

Lemma earliest_fold_is_Some ts o : ts ≠ [] → is_Some (foldl earliest o ts).
Proof.
  destruct ts as [|x ts]; [done|]. intros _. simpl. unfold earliest at 2.
  generalize (match o with None => x | Some u => Z.min u x end). clear.
  induction ts as [|y ts IH]; intros z; simpl; [by eexists | apply IH].
Qed.

Lemma latest_fold_is_Some ts o : ts ≠ [] → is_Some (foldl latest o ts).
Proof.
  destruct ts as [|x ts]; [done|]. intros _. simpl. unfold latest at 2.
  generalize (match o with None => x | Some u => Z.max u x end). clear.
  induction ts as [|y ts IH]; intros z; simpl; [by eexists | apply IH].
Qed.

Lemma daily_sleep_map_lookup sessions d :
  daily_sleep_map sessions !! d =
    match night d sessions with
    | [] => None
    | g => Some (night_entry d g)
    end.
Proof.
  unfold daily_sleep_map, night, night_entry.
  rewrite sleep_step_group. apply group_fold_empty.
Qed.

(** The summaries are the formatted entries of the nights that have a
    session. *)
Lemma elem_of_aggregate_daily_sleep sessions s :
  s ∈ aggregate_daily_sleep sessions ↔
  night (d_date s) sessions ≠ [] ∧
  s = format_sleep (night_entry (d_date s) (night (d_date s) sessions)).
Proof.
  unfold aggregate_daily_sleep. rewrite merge_sort_Permutation.
  rewrite list_elem_of_fmap. split.
  - intros (a & -> & Ha). apply list_elem_of_fmap in Ha as ([d a'] & -> & Hda).
    apply elem_of_map_to_list in Hda. rewrite daily_sleep_map_lookup in Hda.
    simpl. destruct (night d sessions) as [|x g] eqn:E; [done|].
    injection Hda as <-. rewrite acc_date_night_entry, E. done.
  - intros [Hne ->]. set (d := d_date s) in *.
    exists (night_entry d (night d sessions)). split; [done|].
    apply list_elem_of_fmap. exists (d, night_entry d (night d sessions)).
    split; [done|]. apply elem_of_map_to_list. rewrite daily_sleep_map_lookup.
    by destruct (night d sessions).
Qed.

Lemma night_elem d sessions x : x ∈ night d sessions ↔ x ∈ sessions ∧ ss_date x = d.
Proof. apply group_of_elem. Qed.

Lemma aggregate_daily_sleep_inv sessions s :
  s ∈ aggregate_daily_sleep sessions →
  ∃ d, d_date s = d ∧ night d sessions ≠ [] ∧
       s = format_sleep (night_entry d (night d sessions)).
Proof.
  intros Hs. apply elem_of_aggregate_daily_sleep in Hs as [Hg Hs]. by eexists.
Qed.

Lemma night_entry_bedtime d g :
  g ≠ [] →
  ∃ first, first ∈ g ∧ (∀ x, x ∈ g → ss_start_time first <= ss_start_time x) ∧
    acc_bedtime (night_entry d g) = Some (ss_start_time first).
Proof.
  intros Hg. unfold night_entry. rewrite acc_bedtime_fold. simpl.
  destruct (earliest_fold_is_Some (ss_start_time <$> g) None) as [t Ht].
  { by destruct g. }
  destruct (earliest_fold_min _ _ _ Ht) as ([Hin|Hin] & Hle & _); [done|].
  apply list_elem_of_fmap in Hin as (first & -> & Hfirst).
  exists first. split; [done|]. split; [|done].
  intros x Hx. apply Hle. apply list_elem_of_fmap. by exists x.
Qed.

Lemma night_entry_wake_time d g :
  g ≠ [] →
  ∃ last, last ∈ g ∧ (∀ x, x ∈ g → ss_end_time x <= ss_end_time last) ∧
    acc_wake_time (night_entry d g) = Some (ss_end_time last).
Proof.
  intros Hg. unfold night_entry. rewrite acc_wake_time_fold. simpl.
  destruct (latest_fold_is_Some (ss_end_time <$> g) None) as [t Ht].
  { by destruct g. }
  destruct (latest_fold_max _ _ _ Ht) as ([Hin|Hin] & Hle & _); [done|].
  apply list_elem_of_fmap in Hin as (last & -> & Hlast).
  exists last. split; [done|]. split; [|done].
  intros x Hx. apply Hle. apply list_elem_of_fmap. by exists x.
Qed.

(** Bedtime and wake time of a summary come from the earliest start and the
    latest end among all the sessions of its night. *)
Lemma night_times sessions s :
  s ∈ aggregate_daily_sleep sessions →
  ∃ first last,
    first ∈ night (d_date s) sessions ∧ last ∈ night (d_date s) sessions ∧
    (∀ x, x ∈ night (d_date s) sessions →
          ss_start_time first <= ss_start_time x ∧ ss_end_time x <= ss_end_time last) ∧
    d_bedtime s = strftime_HM (ss_start_time first) ∧
    d_wake_time s = strftime_HM (ss_end_time last).
Proof.
  intros Hs. apply aggregate_daily_sleep_inv in Hs as (d & <- & Hg & Hs).
  set (d := d_date s) in *. clearbody d. subst s.
  destruct (night_entry_bedtime d _ Hg) as (first & Hf & Hmin & Hb).
  destruct (night_entry_wake_time d _ Hg) as (last & Hl & Hmax & Hw).
  exists first, last. split; [done|]. split; [done|]. split.
  - intros x Hx. split; [by apply Hmin | by apply Hmax].
  - simpl. by rewrite Hb, Hw.
Qed.

(** The stage fields of a summary, from the stage minutes of its night. *)
Lemma stage_fields_of_night sessions s :
  s ∈ aggregate_daily_sleep sessions →
  let g := night (d_date s) sessions in
  d_time_in_bed_hours s = py_round (stage_minutes InBed g / 60) 2 ∧
  d_total_sleep_hours s =
    py_round ((stage_minutes Asleep g + stage_minutes Core g
               + stage_minutes Deep g + stage_minutes REM g) / 60) 2 ∧
  d_awake_minutes s = py_round (stage_minutes Awake g) 1 ∧
  d_core_sleep_hours s = py_round (stage_minutes Core g / 60) 2 ∧
  d_deep_sleep_hours s = py_round (stage_minutes Deep g / 60) 2 ∧
  d_rem_sleep_hours s = py_round (stage_minutes REM g / 60) 2.
Proof.
  intros Hs g. apply aggregate_daily_sleep_inv in Hs as (d & <- & _ & Hs).
  subst g. set (d := d_date s) in *. clearbody d. subst s.
  by rewrite <- !(bucket_night_entry _ d (night d sessions)).
Qed.

Lemma of_stage_recognized b g : of_stage b (recognized g) = of_stage b g.
Proof.
  unfold of_stage, recognized. apply list_filter_filter_l.
  intros x ->. by eexists.
Qed.

Lemma night_recognized d l : night d (recognized l) = recognized (night d l).
Proof.
  unfold night, group_of, recognized. rewrite !list_filter_filter.
  apply list_filter_iff. tauto.
Qed.

Lemma stage_minutes_recognized b d l :
  stage_minutes b (night d (recognized l)) = stage_minutes b (night d l).
Proof. unfold stage_minutes. by rewrite night_recognized, of_stage_recognized. Qed.

(** ** Extractors *)

Lemma elem_of_findall ty root r : r ∈ findall ty root ↔ r ∈ root ∧ r_type r = ty.
Proof. unfold findall. rewrite list_elem_of_filter. tauto. Qed.

Lemma sleep_kept_Some cutoff r s e :
  sleep_kept cutoff r = Some (s, e) ↔
  r_startDate r = Some s ∧ r_endDate r = Some e ∧ cutoff <= s * US_PER_SECOND.
Proof.
  unfold sleep_kept, before.
  destruct (r_startDate r) as [s'|], (r_endDate r) as [e'|];
    try (split; [done | by intros (? & ? & ?)]).
  destruct (Z.ltb_spec (s' * US_PER_SECOND) cutoff).
  - split; [done | intros ([= ->] & _ & ?); lia].
  - split; [by intros [= -> ->] | by intros ([= ->] & [= ->] & _)].
Qed.

Lemma quantity_kept_Some cutoff r s :
  quantity_kept cutoff r = Some s ↔
  r_startDate r = Some s ∧ cutoff <= s * US_PER_SECOND.
Proof.
  unfold quantity_kept, before.
  destruct (r_startDate r) as [s'|]; [|split; [done | by intros [? ?]]].
  destruct (Z.ltb_spec (s' * US_PER_SECOND) cutoff).
  - split; [done | intros ([= ->] & ?); lia].
  - split; [by intros [= ->] | by intros ([= ->] & _)].
Qed.

Lemma before_false s cutoff : before s cutoff = false ↔ cutoff <= s * US_PER_SECOND.
Proof. unfold before. apply Z.ltb_ge. Qed.

Lemma sleep_loop_skip cutoff r records :
  sleep_kept cutoff r = None →
  sleep_loop cutoff (r :: records) = sleep_loop cutoff records.
Proof.
  unfold sleep_kept. simpl.
  destruct (r_startDate r), (r_endDate r); try done.
  by destruct (before _ _).
Qed.

Lemma sleep_loop_keep cutoff r records s e :
  sleep_kept cutoff r = Some (s, e) →
  sleep_loop cutoff (r :: records) =
    match attr_text (r_value r) with
    | None => Raise AttributeError
    | Some value =>
        sessions ← sleep_loop cutoff records;
        mret (sleep_session s e value (source_of r) :: sessions)
    end.
Proof.
  unfold sleep_kept. simpl.
  destruct (r_startDate r), (r_endDate r); try done.
  destruct (before _ _); [done|]. by intros [= -> ->].
Qed.

(** The sleep loop either turns the records its filter keeps into sessions,
    one for one and in order, or stops at a kept record without a value. *)
Lemma sleep_loop_spec cutoff records :
  match sleep_loop cutoff records with
  | Ok sessions =>
      Forall2 session_of
        (filter (fun r => is_Some (sleep_kept cutoff r)) records) sessions
  | Raise e =>
      ∃ r, r ∈ records ∧ is_Some (sleep_kept cutoff r) ∧
           attr_text (r_value r) = None ∧ e = AttributeError
  end.
Proof.
  induction records as [|r records IH]; [constructor|].
  destruct (sleep_kept cutoff r) as [[s e]|] eqn:Hk.
  - rewrite (sleep_loop_keep _ _ _ _ _ Hk).
    assert (Hk' : is_Some (sleep_kept cutoff r)) by (by rewrite Hk).
    apply sleep_kept_Some in Hk as (Hs & He & _).
    destruct (attr_text (r_value r)) as [v|] eqn:Hv.
    + destruct (sleep_loop cutoff records) as [sessions|e']; simpl.
      * rewrite filter_cons_True by done. constructor; [|done].
        by exists s, e, v.
      * destruct IH as (r' & ? & ?). exists r'. split; [by right | done].
    + exists r. split; [left | done].
  - rewrite (sleep_loop_skip _ _ _ Hk).
    rewrite filter_cons_False by (rewrite Hk; by intros [? ?]).
    destruct (sleep_loop cutoff records); [done|].
    destruct IH as (r' & ? & ?). exists r'. split; [by right | done].
Qed.

Lemma quantity_loop_skip cutoff r records :
  quantity_kept cutoff r = None →
  quantity_loop cutoff (r :: records) = quantity_loop cutoff records.
Proof.
  unfold quantity_kept. simpl.
  destruct (r_startDate r); [|done]. by destruct (before _ _).
Qed.

Lemma quantity_loop_keep cutoff r records s :
  quantity_kept cutoff r = Some s →
  quantity_loop cutoff (r :: records) =
    (value ← py_float (r_value r);
     measurements ← quantity_loop cutoff records;
     mret (measurement s value r :: measurements)).
Proof.
  unfold quantity_kept. simpl.
  destruct (r_startDate r); [|done].
  destruct (before _ _); [done|]. by intros [= ->].
Qed.

(** The same for a cardiac loop, which stops at a kept record whose value is
    missing or is no number. *)
Lemma quantity_loop_spec cutoff records :
  match quantity_loop cutoff records with
  | Ok measurements =>
      Forall2 measurement_of
        (filter (fun r => is_Some (quantity_kept cutoff r)) records) measurements
  | Raise e =>
      ∃ r, r ∈ records ∧ is_Some (quantity_kept cutoff r) ∧
           py_float (r_value r) = Raise e
  end.
Proof.
  induction records as [|r records IH]; [constructor|].
  destruct (quantity_kept cutoff r) as [s|] eqn:Hk.
  - rewrite (quantity_loop_keep _ _ _ _ Hk).
    assert (Hk' : is_Some (quantity_kept cutoff r)) by (by rewrite Hk).
    apply quantity_kept_Some in Hk as (Hs & _).
    destruct (py_float (r_value r)) as [x|e'] eqn:Hv; simpl.
    + destruct (quantity_loop cutoff records) as [ms|e']; simpl.
      * rewrite filter_cons_True by done. constructor; [|done].
        by exists s, x.
      * destruct IH as (r' & ? & ?). exists r'. split; [by right | done].
    + exists r. split; [left | done].
  - rewrite (quantity_loop_skip _ _ _ Hk).
    rewrite filter_cons_False by (rewrite Hk; by intros [? ?]).
    destruct (quantity_loop cutoff records); [done|].
    destruct IH as (r' & ? & ?). exists r'. split; [by right | done].
Qed.

(** A loop depends on the cutoff only through the decisions of its filter. *)
Lemma sleep_loop_ext c c' records :
  (∀ r s, r ∈ records → r_startDate r = Some s → before s c = before s c') →
  sleep_loop c records = sleep_loop c' records.
Proof.
  induction records as [|r records IH]; intros H; simpl; [done|].
  rewrite IH by (intros r' s Hr'; apply H; by right).
  destruct (r_startDate r) as [s|] eqn:Hs; [|done].
  by rewrite (H r s) by (done || left).
Qed.

Lemma quantity_loop_ext c c' records :
  (∀ r s, r ∈ records → r_startDate r = Some s → before s c = before s c') →
  quantity_loop c records = quantity_loop c' records.
Proof.
  induction records as [|r records IH]; intros H; simpl; [done|].
  rewrite IH by (intros r' s Hr'; apply H; by right).
  destruct (r_startDate r) as [s|] eqn:Hs; [|done].
  by rewrite (H r s) by (done || left).
Qed.

(** ** Table merger *)

Section ByDate.
Context {A : Type} (key : A → Z).

Lemma by_date_fold_lookup (l : list A) (m : gmap Z A) (d : Z) :
  foldl (fun m x => <[key x := x]> m) m l !! d =
    match last (group_of key d l) with
    | Some x => Some x
    | None => m !! d
    end.
Proof.
  revert m. induction l as [|x l IH]; intros m; simpl; [done|].
  rewrite IH. unfold group_of.
  destruct (decide (key x = d)) as [<-|Hne].
  - rewrite filter_cons_True by done. rewrite last_cons, lookup_insert_eq.
    by destruct (last _).
  - rewrite filter_cons_False by done. by rewrite lookup_insert_ne.
Qed.

(** The entry of a date is the last element of the list with that date. *)
Lemma by_date_lookup (l : list A) (d : Z) :
  by_date key l !! d = last (group_of key d l).
Proof.
  unfold by_date. rewrite by_date_fold_lookup, lookup_empty.
  by destruct (last _).
Qed.

Lemma by_date_lookup_None (l : list A) (d : Z) :
  by_date key l !! d = None ↔ d ∉ key <$> l.
Proof.
  rewrite by_date_lookup, last_None, group_of_nil. split.
  - intros H Hin. apply list_elem_of_fmap in Hin as (x & -> & Hx). by apply (H x).
  - intros H x Hx Hk. apply H. apply list_elem_of_fmap. by exists x.
Qed.

Lemma by_date_lookup_Some (l : list A) (d : Z) (x : A) :
  by_date key l !! d = Some x → x ∈ l ∧ key x = d.
Proof.
  rewrite by_date_lookup. intros H. apply last_Some in H as [g Hg].
  apply (group_of_elem key d l x). rewrite Hg. apply elem_of_app. right. left.
Qed.

Lemma dom_by_date (l : list A) :
  dom (by_date key l) = (list_to_set (key <$> l) : gset Z).
Proof.
  apply set_eq. intros d. rewrite elem_of_dom, elem_of_list_to_set.
  rewrite <- not_eq_None_Some, by_date_lookup_None.
  destruct (decide (d ∈ key <$> l)); tauto.
Qed.
End ByDate.

(** A list sorted by [<=] that has no duplicates ascends strictly. *)
Lemma StronglySorted_le_lt (l : list Z) :
  StronglySorted Z.le l → NoDup l → StronglySorted Z.lt l.
Proof.
  induction 1 as [|x l Hs IH Hx]; intros Hnd; [constructor|].
  apply NoDup_cons in Hnd as [Hnin Hnd]. constructor; [by apply IH|].
  apply Forall_forall. intros y Hy.
  assert (x <= y) by (by apply (proj1 (Forall_forall _ _) Hx)).
  assert (x ≠ y) by (intros ->; by apply Hnin).
  lia.
Qed.

Lemma sorted_elements_spec (X : gset Z) :
  StronglySorted Z.lt (merge_sort Z.le (elements X)) ∧
  (∀ d, d ∈ merge_sort Z.le (elements X) ↔ d ∈ X) ∧
  length (merge_sort Z.le (elements X)) = size X.
Proof.
  split; [|split].
  - apply StronglySorted_le_lt.
    + apply StronglySorted_merge_sort; apply _.
    + rewrite merge_sort_Permutation. apply NoDup_elements.
  - intros d. by rewrite merge_sort_Permutation, elem_of_elements.
  - by rewrite merge_sort_Permutation.
Qed.

Lemma row_date_combined_row sbd hbd (l : list Z) :
  row_date <$> (combined_row sbd hbd <$> l) = l.
Proof. rewrite <- list_fmap_compose. induction l; [done|]. simpl. by f_equal. Qed.

(** The dates of the rows: the dates of the two inputs, sorted. *)
Lemma generate_spreadsheet_dates
    (sleep_data : list DailySleep) (heart_data : list DailyHeart) :
  row_date <$> generate_spreadsheet sleep_data heart_data =
    merge_sort Z.le
      (elements (list_to_set (d_date <$> sleep_data)
                 ∪ list_to_set (h_date <$> heart_data) : gset Z)).
Proof.
  unfold generate_spreadsheet. by rewrite row_date_combined_row, !dom_by_date.
Qed.

(** A row is built from the entries of its date. *)
Lemma generate_spreadsheet_row sleep_data heart_data row :
  row ∈ generate_spreadsheet sleep_data heart_data →
  row = combined_row (by_date d_date sleep_data) (by_date h_date heart_data)
          (row_date row).
Proof.
  unfold generate_spreadsheet. intros Hrow.
  by apply list_elem_of_fmap in Hrow as (d & -> & _).
Qed.

(** C1: the merge is an outer join.  The rows of [generate_spreadsheet] carry,
    in strictly ascending order, exactly the dates of the union of the dates
    of the two inputs, one row each; a row whose date has no sleep summary
    has its eight sleep cells blank, and a row whose date has no cardiac
    summary has its six cardiac cells blank. *)
Theorem generate_spreadsheet_outer_join
    (sleep_data : list DailySleep) (heart_data : list DailyHeart) :
  let rows := generate_spreadsheet sleep_data heart_data in
  let dates : gset Z :=
    list_to_set (d_date <$> sleep_data) ∪ list_to_set (h_date <$> heart_data) in
  StronglySorted Z.lt (row_date <$> rows) ∧
  (∀ d, d ∈ row_date <$> rows ↔ d ∈ dates) ∧
  length rows = size dates ∧
  (∀ row, row ∈ rows →
     (row_date row ∉ d_date <$> sleep_data → row_sleep row = blank_sleep) ∧
     (row_date row ∉ h_date <$> heart_data → row_heart row = blank_heart)).
Proof.
  intros rows dates.
  assert (Hlen : length rows = length (row_date <$> rows)) by (by rewrite length_fmap).
  rewrite Hlen. subst rows. rewrite generate_spreadsheet_dates. fold dates.
  destruct (sorted_elements_spec dates) as (Hsorted & Hin & Hsize).
  split; [done|]. split; [done|]. split; [done|].
  intros row Hrow. rewrite (generate_spreadsheet_row _ _ _ Hrow). simpl. split.
  - intros Hd. apply (by_date_lookup_None d_date) in Hd. by rewrite Hd.
  - intros Hd. apply (by_date_lookup_None h_date) in Hd. by rewrite Hd.
Qed.

(** ** Daily cardiac aggregator *)

Lemma add_resting_hr_group :
  add_resting_hr = group_step m_date default_heart resting_update.
Proof. reflexivity. Qed.

Lemma add_hrv_group : add_hrv = group_step m_date default_heart hrv_update.
Proof. reflexivity. Qed.

Lemma h_date_heart_stats d vs : h_date (heart_stats d vs) = d.
Proof. by destruct vs. Qed.

Lemma dated_heart_stats_map hrs : dated (heart_stats_map hrs).
Proof.
  intros d h. unfold heart_stats_map. rewrite map_lookup_imap.
  destruct (_ !! d) as [vs|]; simpl; [|done].
  intros [= <-]. apply h_date_heart_stats.
Qed.

Section HeartFold.
Context (upd : Measurement → DailyHeart → DailyHeart).
Context (upd_date : ∀ m h, h_date (upd m h) = h_date h).

Lemma h_date_fold g h :
  h_date (foldl (fun b x => upd x b) h g) = h_date h.
Proof using upd_date.
  revert h. induction g as [|x g IH]; intros h; simpl; [done|].
  by rewrite IH, upd_date.
Qed.

Lemma dated_fold daily l :
  dated daily → dated (foldl (group_step m_date default_heart upd) daily l).
Proof using upd_date.
  intros Hd d h. rewrite group_fold_lookup.
  destruct (group_of m_date d l) as [|x g].
  - apply Hd.
  - intros [= <-]. rewrite h_date_fold, ?upd_date.
    destruct (daily !! d) as [h|] eqn:E; simpl; [exact (Hd _ _ E) | done].
Qed.
End HeartFold.

Lemma dated_daily_heart_map hrs rhrs hrvs : dated (daily_heart_map hrs rhrs hrvs).
Proof.
  unfold daily_heart_map. rewrite add_hrv_group, add_resting_hr_group.
  apply dated_fold; [done|]. apply dated_fold; [done|].
  apply dated_heart_stats_map.
Qed.

Lemma elem_of_aggregate_daily_heart_data hrs rhrs hrvs s :
  s ∈ aggregate_daily_heart_data hrs rhrs hrvs ↔
  daily_heart_map hrs rhrs hrvs !! h_date s = Some s.
Proof.
  unfold aggregate_daily_heart_data. rewrite merge_sort_Permutation.
  rewrite list_elem_of_fmap. split.
  - intros ([d h] & -> & Hdh). apply elem_of_map_to_list in Hdh. simpl.
    by rewrite (dated_daily_heart_map _ _ _ _ _ Hdh).
  - intros H. exists (h_date s, s). split; [done|]. by apply elem_of_map_to_list.
Qed.

(** The group of a date in a list that ends, for that date, with [m]. *)
Lemma group_of_last {A} (key : A → Z) (l1 l2 : list A) (m : A) :
  (∀ x, x ∈ l2 → key x ≠ key m) →
  group_of key (key m) (l1 ++ m :: l2) = group_of key (key m) l1 ++ [m].
Proof.
  intros H. unfold group_of. rewrite filter_app, filter_cons_True by done.
  f_equal. f_equal. by apply (group_of_nil key).
Qed.

Lemma resting_fold_last g m h :
  h_resting_hr (foldl (fun b x => resting_update x b) h (g ++ [m])) = Some (m_value m).
Proof. by rewrite foldl_app. Qed.

Lemma hrv_fold_last g m h :
  h_hrv (foldl (fun b x => hrv_update x b) h (g ++ [m])) = Some (m_value m).
Proof. by rewrite foldl_app. Qed.

Lemma resting_fold_hrv g h :
  h_resting_hr (foldl (fun b x => hrv_update x b) h g) = h_resting_hr h.
Proof. revert h. induction g as [|x g IH]; intros h; simpl; [done | by rewrite IH]. Qed.

(** The entry of the date of [m] when [m] is the last resting heart rate of
    its date. *)
Lemma daily_heart_map_resting hrs l1 m l2 hrvs :
  (∀ x, x ∈ l2 → m_date x ≠ m_date m) →
  ∃ h, daily_heart_map hrs (l1 ++ m :: l2) hrvs !! m_date m = Some h ∧
       h_resting_hr h = Some (m_value m).
Proof.
  intros Hlast. unfold daily_heart_map. fold (heart_stats_map hrs).
  rewrite add_hrv_group, add_resting_hr_group.
  set (stats := heart_stats_map hrs).
  assert (Hr : ∃ h, foldl (group_step m_date default_heart resting_update) stats
                      (l1 ++ m :: l2) !! m_date m = Some h ∧
                    h_resting_hr h = Some (m_value m)).
  { rewrite group_fold_lookup, group_of_last by done.
    destruct (group_of m_date (m_date m) l1 ++ [m]) as [|y g] eqn:E.
    { by destruct (group_of m_date (m_date m) l1). }
    eexists. split; [done|]. rewrite <- E. apply resting_fold_last. }
  destruct Hr as (h & Hh & Hv).
  rewrite group_fold_lookup, Hh. simpl.
  destruct (group_of m_date (m_date m) hrvs) as [|y g]; [by exists h|].
  eexists. split; [done|]. by rewrite resting_fold_hrv.
Qed.

(** The same for the last HRV measurement of a date. *)
Lemma daily_heart_map_hrv hrs rhrs l1 m l2 :
  (∀ x, x ∈ l2 → m_date x ≠ m_date m) →
  ∃ h, daily_heart_map hrs rhrs (l1 ++ m :: l2) !! m_date m = Some h ∧
       h_hrv h = Some (m_value m).
Proof.
  intros Hlast. unfold daily_heart_map. rewrite add_hrv_group.
  rewrite group_fold_lookup, group_of_last by done.
  destruct (group_of m_date (m_date m) l1 ++ [m]) as [|y g] eqn:E.
  { by destruct (group_of m_date (m_date m) l1). }
  eexists. split; [done|]. rewrite <- E. apply hrv_fold_last.
Qed.

(** C5: last observed value wins.  When [m] is the last measurement of its
    date in the list of resting heart rates (of HRV measurements), the
    aggregator returns one summary of that date and its [resting_hr] ([hrv])
    is the value of [m]. *)
Theorem last_observed_value_wins
    (heart_rates resting_hrs hrvs l1 l2 : list Measurement) (m : Measurement) :
  (∀ x, x ∈ l2 → m_date x ≠ m_date m) →
  (resting_hrs = l1 ++ m :: l2 →
   ∃ s, s ∈ aggregate_daily_heart_data heart_rates resting_hrs hrvs ∧
        h_date s = m_date m ∧ h_resting_hr s = Some (m_value m) ∧
        ∀ s', s' ∈ aggregate_daily_heart_data heart_rates resting_hrs hrvs →
              h_date s' = m_date m → s' = s) ∧
  (hrvs = l1 ++ m :: l2 →
   ∃ s, s ∈ aggregate_daily_heart_data heart_rates resting_hrs hrvs ∧
        h_date s = m_date m ∧ h_hrv s = Some (m_value m) ∧
        ∀ s', s' ∈ aggregate_daily_heart_data heart_rates resting_hrs hrvs →
              h_date s' = m_date m → s' = s).
Proof.
  intros Hlast. split; intros ->.
  - destruct (daily_heart_map_resting heart_rates l1 m l2 hrvs Hlast) as (h & Hh & Hv).
    pose proof (dated_daily_heart_map _ _ _ _ _ Hh) as Hd.
    exists h. split; [|split; [done|split; [done|]]].
    + apply elem_of_aggregate_daily_heart_data. by rewrite Hd.
    + intros s' Hs' Hd'. apply elem_of_aggregate_daily_heart_data in Hs'.
      rewrite Hd' in Hs'. congruence.
  - destruct (daily_heart_map_hrv heart_rates resting_hrs l1 m l2 Hlast) as (h & Hh & Hv).
    pose proof (dated_daily_heart_map _ _ _ _ _ Hh) as Hd.
    exists h. split; [|split; [done|split; [done|]]].
    + apply elem_of_aggregate_daily_heart_data. by rewrite Hd.
    + intros s' Hs' Hd'. apply elem_of_aggregate_daily_heart_data in Hs'.
      rewrite Hd' in Hs'. congruence.
Qed.

(** The scenario of C5: 55 and then 58 on one date give [resting_hr] 58. *)
Lemma resting_55_then_58 :
  (∀ x, x ∈ @nil Measurement → m_date x ≠ m_date resting_58) ∧
  ∃ s, s ∈ aggregate_daily_heart_data [] [resting_55; resting_58] [] ∧
       h_date s = ymd2ord 2024 1 3 ∧ h_resting_hr s = Some 58%float.
Proof.
  assert (H : ∀ x, x ∈ @nil Measurement → m_date x ≠ m_date resting_58).
  { intros x Hx. by apply not_elem_of_nil in Hx. }
  split; [exact H|].
  destruct (last_observed_value_wins [] [resting_55; resting_58] []
              [resting_55] [] resting_58 H) as [Hr _].
  destruct (Hr eq_refl) as (s & Hs & Hd & Hv & _).
  exists s. split; [exact Hs|]. split; [exact Hd | exact Hv].
Defined.

(** C4: the total sleep of a summary is the sum of the Asleep, Core, Deep and
    REM minutes of the sessions of its date, converted to hours as every hour
    field of a summary is (divided by 60, two decimals); it is a function of
    the sessions alone. *)
Theorem total_sleep_hours_is_stage_sum (sessions : list SleepSession) (s : DailySleep) :
  s ∈ aggregate_daily_sleep sessions →
  d_total_sleep_hours s =
    py_round ((stage_minutes Asleep (night (d_date s) sessions)
               + stage_minutes Core (night (d_date s) sessions)
               + stage_minutes Deep (night (d_date s) sessions)
               + stage_minutes REM (night (d_date s) sessions)) / 60) 2.
Proof. intros Hs. by destruct (stage_fields_of_night sessions s Hs) as (_ & ? & _). Qed.

(** Half an hour asleep, ninety minutes of core sleep, an hour of deep sleep
    and forty-five minutes of REM sleep make 3.75 hours. *)
Lemma total_sleep_hours_full_night :
  full_night_summary ∈ aggregate_daily_sleep full_night ∧
  d_total_sleep_hours full_night_summary = 3.75%float.
Proof.
  assert (H : full_night_summary ∈ aggregate_daily_sleep full_night).
  { vm_compute. constructor. }
  split; [exact H|].
  rewrite (total_sleep_hours_is_stage_sum full_night full_night_summary H).
  vm_compute. reflexivity.
Defined.

(** ** From records to summaries *)

Lemma Forall2_elem_of_r {A B} (P : A → B → Prop) l k y :
  Forall2 P l k → y ∈ k → ∃ x, x ∈ l ∧ P x y.
Proof.
  induction 1 as [|x' y' l k HP _ IH]; intros Hy.
  - by apply not_elem_of_nil in Hy.
  - apply elem_of_cons in Hy as [->|Hy].
    + exists x'. split; [left | done].
    + destruct (IH Hy) as (x & Hx & HPx). exists x. split; [by right | done].
Qed.

Lemma Forall2_elem_of_l {A B} (P : A → B → Prop) l k x :
  Forall2 P l k → x ∈ l → ∃ y, y ∈ k ∧ P x y.
Proof.
  induction 1 as [|x' y' l k HP _ IH]; intros Hx.
  - by apply not_elem_of_nil in Hx.
  - apply elem_of_cons in Hx as [->|Hx].
    + exists y'. split; [left | done].
    + destruct (IH Hx) as (y & Hy & HPy). exists y. split; [by right | done].
Qed.

Lemma process_sleep_data_Ok now days root sessions :
  process_sleep_data now days root = Ok sessions →
  ∃ cutoff, cutoff_date now days = Ok cutoff ∧
    Forall2 session_of
      (filter (fun r => is_Some (sleep_kept cutoff r)) (findall SLEEP_ANALYSIS root))
      sessions.
Proof.
  unfold process_sleep_data. destruct (cutoff_date now days) as [c|] eqn:E; [|done].
  simpl. intros H. exists c. split; [done|].
  pose proof (sleep_loop_spec c (findall SLEEP_ANALYSIS root)) as Hspec.
  by rewrite H in Hspec.
Qed.

Lemma process_quantity_Ok ty now days root measurements :
  process_quantity ty now days root = Ok measurements →
  ∃ cutoff, cutoff_date now days = Ok cutoff ∧
    Forall2 measurement_of
      (filter (fun r => is_Some (quantity_kept cutoff r)) (findall ty root))
      measurements.
Proof.
  unfold process_quantity. destruct (cutoff_date now days) as [c|] eqn:E; [|done].
  simpl. intros H. exists c. split; [done|].
  pose proof (quantity_loop_spec c (findall ty root)) as Hspec.
  by rewrite H in Hspec.
Qed.

(** Every session is filed under the date of its start. *)
Lemma session_of_date r x : session_of r x → ss_date x = date_of (ss_start_time x).
Proof. by intros (s & e & v & _ & _ & _ & ->). Qed.

Lemma process_sleep_data_dates now days root sessions x :
  process_sleep_data now days root = Ok sessions → x ∈ sessions →
  ss_date x = date_of (ss_start_time x).
Proof.
  intros H Hx. apply process_sleep_data_Ok in H as (c & _ & HF).
  destruct (Forall2_elem_of_r _ _ _ _ HF Hx) as (r & _ & Hr).
  by apply (session_of_date r).
Qed.

(** A record the filter keeps gives a session. *)
Lemma process_sleep_data_keeps now days root sessions cutoff r s e v :
  process_sleep_data now days root = Ok sessions →
  cutoff_date now days = Ok cutoff →
  r ∈ root → r_type r = SLEEP_ANALYSIS →
  r_startDate r = Some s → r_endDate r = Some e → cutoff <= s * US_PER_SECOND →
  attr_text (r_value r) = Some v →
  sleep_session s e v (source_of r) ∈ sessions.
Proof.
  intros H Hc Hr Hty Hs He Hle Hv.
  apply process_sleep_data_Ok in H as (c & Hc' & HF).
  assert (c = cutoff) as -> by congruence.
  assert (Hk : sleep_kept cutoff r = Some (s, e)) by (by apply sleep_kept_Some).
  assert (Hin : r ∈ filter (fun r => is_Some (sleep_kept cutoff r))
                  (findall SLEEP_ANALYSIS root)).
  { apply list_elem_of_filter. split; [by rewrite Hk|]. by apply elem_of_findall. }
  destruct (Forall2_elem_of_l _ _ _ _ HF Hin) as (x & Hx & (s' & e' & v' & ? & ? & ? & ->)).
  by replace s with s' by congruence; replace e with e' by congruence;
     replace v with v' by congruence.
Qed.

(** Every night with a session has a summary, and only one. *)
Lemma aggregate_daily_sleep_night sessions x :
  x ∈ sessions →
  ∃ s, s ∈ aggregate_daily_sleep sessions ∧ d_date s = ss_date x.
Proof.
  intros Hx. set (d := ss_date x).
  assert (Hg : night d sessions ≠ []).
  { intros Hnil. unfold night in Hnil.
    pose proof (proj1 (group_of_nil ss_date d sessions) Hnil x Hx) as Hne. done. }
  exists (format_sleep (night_entry d (night d sessions))).
  assert (Hd : d_date (format_sleep (night_entry d (night d sessions))) = d)
    by apply acc_date_night_entry.
  split; [|done]. apply elem_of_aggregate_daily_sleep. by rewrite Hd.
Qed.

Lemma aggregate_daily_sleep_unique sessions s s' :
  s ∈ aggregate_daily_sleep sessions → s' ∈ aggregate_daily_sleep sessions →
  d_date s = d_date s' → s = s'.
Proof.
  intros Hs Hs' Hd.
  apply elem_of_aggregate_daily_sleep in Hs as [_ Hs].
  apply elem_of_aggregate_daily_sleep in Hs' as [_ Hs'].
  rewrite Hs, Hs'. by rewrite Hd.
Qed.

(** What the sessions the chain does not list leave of a summary. *)
Lemma stage_fields_recognized sessions s :
  s ∈ aggregate_daily_sleep sessions →
  stage_fields s =
    stage_fields (format_sleep
      (night_entry (d_date s) (recognized (night (d_date s) sessions)))).
Proof.
  intros Hs. destruct (stage_fields_of_night sessions s Hs) as (H1 & H2 & H3 & H4 & H5 & H6).
  unfold stage_fields. simpl.
  rewrite <- !(bucket_night_entry _ (d_date s) (night (d_date s) sessions)) in *.
  fold (bucket InBed (night_entry (d_date s) (recognized (night (d_date s) sessions)))).
  rewrite H1, H2, H3, H4, H5, H6.
  change (total_in_bed_minutes ?a) with (bucket InBed a).
  change (total_asleep_minutes ?a) with (bucket Asleep a).
  change (total_awake_minutes ?a) with (bucket Awake a).
  change (core_sleep_minutes ?a) with (bucket Core a).
  change (deep_sleep_minutes ?a) with (bucket Deep a).
  change (rem_sleep_minutes ?a) with (bucket REM a).
  rewrite !bucket_night_entry. unfold stage_minutes.
  by rewrite !of_stage_recognized.
Qed.

(** ** Sleep stages the chain does not list *)

Lemma not_of_stage x b l : classify (ss_type x) = None → x ∉ of_stage b l.
Proof.
  intros Hc Hin. unfold of_stage in Hin. apply list_elem_of_filter in Hin as [Hb _].
  congruence.
Qed.

(** C10: a session whose type the chain does not list still counts for the
    bedtime and the wake time of its night: both range over all the sessions
    of the night, this one included, while its minutes enter no stage field. *)
Theorem unrecognized_stage_counts_for_times
    (sessions : list SleepSession) (x : SleepSession) :
  x ∈ sessions → classify (ss_type x) = None →
  ∃ s first last,
    s ∈ aggregate_daily_sleep sessions ∧ d_date s = ss_date x ∧
    first ∈ night (ss_date x) sessions ∧ last ∈ night (ss_date x) sessions ∧
    (∀ y, y ∈ sessions → ss_date y = ss_date x →
          ss_start_time first <= ss_start_time y ∧ ss_end_time y <= ss_end_time last) ∧
    ss_start_time first <= ss_start_time x ∧ ss_end_time x <= ss_end_time last ∧
    d_bedtime s = strftime_HM (ss_start_time first) ∧
    d_wake_time s = strftime_HM (ss_end_time last) ∧
    (∀ b, x ∉ of_stage b sessions) ∧
    stage_fields s =
      stage_fields (format_sleep
        (night_entry (ss_date x) (recognized (night (ss_date x) sessions)))).
Proof.
  intros Hx Hc.
  destruct (aggregate_daily_sleep_night sessions x Hx) as (s & Hs & Hd).
  destruct (night_times sessions s Hs) as (first & last & Hf & Hl & Hall & Hb & Hw).
  rewrite Hd in Hf, Hl, Hall.
  assert (Hall' : ∀ y, y ∈ sessions → ss_date y = ss_date x →
            ss_start_time first <= ss_start_time y ∧ ss_end_time y <= ss_end_time last).
  { intros y Hy Hdy. apply Hall. by apply night_elem. }
  exists s, first, last.
  repeat split; try done; try (by apply Hall').
  - intros b. by apply not_of_stage.
  - rewrite <- Hd. by apply stage_fields_recognized.
Qed.

(** A nap at 21:00 before a night that starts at 22:00. *)
Lemma nap_counts_for_times :
  nap_session ∈ nap_session :: full_night ∧
  classify (ss_type nap_session) = None ∧
  ∃ s first,
    s ∈ aggregate_daily_sleep (nap_session :: full_night) ∧
    d_bedtime s = strftime_HM (ss_start_time first) ∧
    ss_start_time first <= mk_datetime 2024 1 5 21 0 0.
Proof.
  assert (H1 : nap_session ∈ nap_session :: full_night) by left.
  assert (H2 : classify (ss_type nap_session) = None) by reflexivity.
  split; [exact H1|]. split; [exact H2|].
  destruct (unrecognized_stage_counts_for_times _ _ H1 H2)
    as (s & first & last & Hs & _ & _ & _ & _ & Hle & _ & Hb & _).
  exists s, first. split; [exact Hs|]. split; [exact Hb | exact Hle].
Defined.

(** The nap moves the bedtime of that night to 21:00 and changes no stage
    field. *)
Example nap_moves_bedtime_only :
  aggregate_daily_sleep full_night = [full_night_summary] ∧
  aggregate_daily_sleep (nap_session :: full_night) =
    [ {| d_date := ymd2ord 2024 1 5; d_bedtime := "21:00"; d_wake_time := "00:50";
         d_time_in_bed_hours := 0.5; d_total_sleep_hours := 3.75;
         d_awake_minutes := 10; d_core_sleep_hours := 1.5;
         d_deep_sleep_hours := 1; d_rem_sleep_hours := 0.75 |} ].
Proof. split; vm_compute; reflexivity. Qed.

(** C7, as stated, fails: the nap is kept, but under its own label ["Nap"];
    no session is ever tagged ["Unknown"]. *)
Lemma unrecognized_stage_not_tagged_unknown :
  process_sleep_data nap_now 30 [nap_record] = Ok [nap_session] ∧
  classify (ss_type nap_session) = None ∧
  ss_type nap_session = "Nap" ∧
  ss_type nap_session ≠ "Unknown".
Proof. split; [|split; [|split]]; try (vm_compute; reflexivity). by vm_compute. Qed.

(** C7, amended: a sleep record inside the window whose stripped label the
    chain does not list is kept as a session under that stripped label (there
    is no Unknown stage), and its minutes enter no stage total: it belongs to
    no bucket, and the stage fields of every summary are those of the listed
    sessions alone. *)
Theorem unrecognized_stage_kept_under_own_label
    (now : Z) (days : Z) (root : list XmlRecord) (sessions : list SleepSession)
    (cutoff : Z) (r : XmlRecord) (s e : Z) (v : string) :
  process_sleep_data now days root = Ok sessions →
  cutoff_date now days = Ok cutoff →
  r ∈ root → r_type r = SLEEP_ANALYSIS →
  r_startDate r = Some s → r_endDate r = Some e → cutoff <= s * US_PER_SECOND →
  attr_text (r_value r) = Some v →
  classify (str_remove "HKCategoryValueSleepAnalysis" v) = None →
  ∃ x, x ∈ sessions ∧ ss_start_time x = s ∧ ss_end_time x = e ∧
       ss_type x = str_remove "HKCategoryValueSleepAnalysis" v ∧
       (∀ b, x ∉ of_stage b sessions) ∧
       ∀ su, su ∈ aggregate_daily_sleep sessions →
         stage_fields su =
           stage_fields (format_sleep
             (night_entry (d_date su) (recognized (night (d_date su) sessions)))).
Proof.
  intros H Hc Hr Hty Hs He Hle Hv Hcl.
  exists (sleep_session s e v (source_of r)).
  split; [by eapply process_sleep_data_keeps|].
  repeat split; try done.
  - intros b. by apply not_of_stage.
  - intros su Hsu. by apply stage_fields_recognized.
Qed.

Lemma nap_kept_under_own_label :
  process_sleep_data nap_now 30 [nap_record] = Ok [nap_session] ∧
  cutoff_date nap_now 30 = Ok (mk_clock 2023 12 11 8 0 0 250000) ∧
  mk_clock 2023 12 11 8 0 0 250000 <= mk_datetime 2024 1 5 21 0 0 * US_PER_SECOND ∧
  classify (str_remove "HKCategoryValueSleepAnalysis" "HKCategoryValueSleepAnalysisNap") = None ∧
  ∃ x, x ∈ [nap_session] ∧ ss_type x = "Nap" ∧ (∀ b, x ∉ of_stage b [nap_session]).
Proof.
  assert (H1 : process_sleep_data nap_now 30 [nap_record] = Ok [nap_session])
    by (vm_compute; reflexivity).
  assert (H2 : cutoff_date nap_now 30 = Ok (mk_clock 2023 12 11 8 0 0 250000))
    by (vm_compute; reflexivity).
  assert (H3 : mk_clock 2023 12 11 8 0 0 250000
               <= mk_datetime 2024 1 5 21 0 0 * US_PER_SECOND)
    by (vm_compute; discriminate).
  assert (H4 : classify (str_remove "HKCategoryValueSleepAnalysis"
                           "HKCategoryValueSleepAnalysisNap") = None)
    by (vm_compute; reflexivity).
  split; [exact H1|]. split; [exact H2|]. split; [exact H3|]. split; [exact H4|].
  destruct (unrecognized_stage_kept_under_own_label nap_now 30 [nap_record]
              [nap_session] _ nap_record _ _ _ H1 H2 (list_elem_of_here _ _)
              eq_refl eq_refl eq_refl H3 eq_refl H4)
    as (x & Hx & _ & _ & Hty & Hb & _).
  exists x. split; [exact Hx|]. split; [exact Hty | exact Hb].
Defined.

(** ** Nights *)

(** C6, as stated, fails on its scenario: the second session starts at 00:30
    on 2024-01-02 and is filed under that date, so the two sessions give two
    summaries and not the one of the claim. *)
Lemma scenario_spans_two_nights :
  process_sleep_data scenario_now 30 scenario_records = Ok scenario_sessions ∧
  aggregate_daily_sleep scenario_sessions
    = [scenario_first_night; scenario_second_night] ∧
  scenario_one_night ∉ aggregate_daily_sleep scenario_sessions.
Proof.
  assert (H : aggregate_daily_sleep scenario_sessions
              = [scenario_first_night; scenario_second_night])
    by (vm_compute; reflexivity).
  split; [vm_compute; reflexivity|]. split; [exact H|].
  rewrite H. intros Hin.
  apply elem_of_cons in Hin as [Hin|Hin].
  - apply (f_equal d_wake_time) in Hin. discriminate Hin.
  - apply elem_of_cons in Hin as [Hin|Hin].
    + apply (f_equal d_bedtime) in Hin. discriminate Hin.
    + by apply not_elem_of_nil in Hin.
Qed.

(** C6, amended: the bedtime of a summary is the time of day of the earliest
    start among the sessions of its night and its wake time the time of day
    of the latest end; a session is filed under the date of its start.  In
    the scenario the second session starts on 2024-01-02: the two sessions
    give a summary of 2024-01-01 (23:00 to 00:30, 1.5 hours of core sleep)
    and one of 2024-01-02 (00:30 to 06:30, 6 hours of deep sleep); the single
    summary 23:00 to 06:30 with 7.5 hours arises only when both sessions are
    filed under 2024-01-01. *)
Theorem bedtime_wake_time_of_night (sessions : list SleepSession) (s : DailySleep) :
  s ∈ aggregate_daily_sleep sessions →
  (∃ first last,
     first ∈ night (d_date s) sessions ∧ last ∈ night (d_date s) sessions ∧
     (∀ x, x ∈ sessions → ss_date x = d_date s →
           ss_start_time first <= ss_start_time x ∧ ss_end_time x <= ss_end_time last) ∧
     d_bedtime s = strftime_HM (ss_start_time first) ∧
     d_wake_time s = strftime_HM (ss_end_time last)) ∧
  (∀ now days root, process_sleep_data now days root = Ok sessions →
     ∀ x, x ∈ sessions → ss_date x = date_of (ss_start_time x)) ∧
  process_sleep_data scenario_now 30 scenario_records = Ok scenario_sessions ∧
  aggregate_daily_sleep scenario_sessions
    = [scenario_first_night; scenario_second_night] ∧
  aggregate_daily_sleep (filed_under (ymd2ord 2024 1 1) <$> scenario_sessions)
    = [scenario_one_night].
Proof.
  intros Hs. split; [|split; [|split; [|split]]].
  - destruct (night_times sessions s Hs) as (first & last & Hf & Hl & Hall & Hb & Hw).
    exists first, last. repeat split; try done; by apply Hall, night_elem.
  - intros now days root H x Hx. by eapply process_sleep_data_dates.
  - vm_compute. reflexivity.
  - vm_compute. reflexivity.
  - vm_compute. reflexivity.
Qed.

Lemma scenario_first_night_times :
  scenario_first_night ∈ aggregate_daily_sleep scenario_sessions ∧
  ∃ first last,
    first ∈ night (ymd2ord 2024 1 1) scenario_sessions ∧
    last ∈ night (ymd2ord 2024 1 1) scenario_sessions ∧
    strftime_HM (ss_start_time first) = "23:00" ∧
    strftime_HM (ss_end_time last) = "00:30".
Proof.
  assert (H : scenario_first_night ∈ aggregate_daily_sleep scenario_sessions).
  { vm_compute. constructor. }
  split; [exact H|].
  destruct (bedtime_wake_time_of_night scenario_sessions scenario_first_night H)
    as ((first & last & Hf & Hl & _ & Hb & Hw) & _).
  exists first, last. split; [exact Hf|]. split; [exact Hl|].
  split; [symmetry; exact Hb | symmetry; exact Hw].
Defined.

(** ** Rounding *)

Lemma session_of_duration r x :
  session_of r x →
  ss_duration_minutes x = py_round (raw_minutes (ss_start_time x) (ss_end_time x)) 2.
Proof. by intros (s & e & v & _ & _ & _ & ->). Qed.

Lemma by_date_aggregate_daily_sleep sessions s :
  s ∈ aggregate_daily_sleep sessions →
  by_date d_date (aggregate_daily_sleep sessions) !! d_date s = Some s.
Proof.
  intros Hs. rewrite by_date_lookup.
  destruct (last (group_of d_date (d_date s) (aggregate_daily_sleep sessions)))
    as [s'|] eqn:E.
  - apply last_Some in E as [g Hg].
    assert (Hs' : s' ∈ group_of d_date (d_date s) (aggregate_daily_sleep sessions)).
    { rewrite Hg. apply elem_of_app. right. left. }
    apply group_of_elem in Hs' as [Hs' Hd].
    f_equal. by apply (aggregate_daily_sleep_unique sessions).
  - apply last_None in E.
    pose proof (proj1 (group_of_nil d_date _ _) E s Hs) as Hne. done.
Qed.

(** The rows carry the fields of a sleep summary as they are. *)
Lemma generate_spreadsheet_sleep_cells sessions heart_data s :
  s ∈ aggregate_daily_sleep sessions →
  (∃ row, row ∈ generate_spreadsheet (aggregate_daily_sleep sessions) heart_data ∧
          row_date row = d_date s) ∧
  (∀ row, row ∈ generate_spreadsheet (aggregate_daily_sleep sessions) heart_data →
          row_date row = d_date s → row_sleep row = sleep_cells s).
Proof.
  intros Hs. pose proof (by_date_aggregate_daily_sleep sessions s Hs) as Hlook.
  split.
  - assert (Hd : d_date s ∈ row_date <$>
                   generate_spreadsheet (aggregate_daily_sleep sessions) heart_data).
    { rewrite generate_spreadsheet_dates. apply sorted_elements_spec.
      apply elem_of_union. left. apply elem_of_list_to_set.
      apply list_elem_of_fmap. by exists s. }
    apply list_elem_of_fmap in Hd as (row & Hd & Hrow). by exists row.
  - intros row Hrow Hd. rewrite (generate_spreadsheet_row _ _ _ Hrow). simpl.
    by rewrite Hd, Hlook.
Qed.

(** C8, as stated, fails: each session duration is rounded to two decimals
    when it is extracted, before the summary rounds the total.  Eight awake
    seconds are eight times 0.02 minutes there, 0.16 in all and 0.2 after the
    summary's rounding; the eight seconds themselves, 0.13 minutes, round to
    0.1. *)
Lemma durations_rounded_before_summing :
  process_sleep_data nap_now 30 eight_awake_seconds = Ok eight_awake_sessions ∧
  aggregate_daily_sleep eight_awake_sessions = [eight_awake_summary] ∧
  ss_duration_minutes <$> eight_awake_sessions
    = [0.02; 0.02; 0.02; 0.02; 0.02; 0.02; 0.02; 0.02]%float ∧
  d_awake_minutes eight_awake_summary = 0.2%float ∧
  py_round (fsum ((fun x => raw_minutes (ss_start_time x) (ss_end_time x))
                    <$> eight_awake_sessions)) 1 = 0.1%float ∧
  py_round (raw_minutes (mk_datetime 2024 1 5 23 0 0) (mk_datetime 2024 1 5 23 0 8)) 1
    = 0.1%float.
Proof. repeat split; vm_compute; reflexivity. Qed.

(** C8, amended: the fields of a sleep summary are rounded twice.  Every
    session duration is rounded to two decimals at extraction; the summary
    rounds, once, the totals of these rounded durations (hours to two
    decimals, minutes to one); the merge copies the fields into the row as
    they are. *)
Theorem sleep_fields_rounded_at_extraction_and_summary
    (now : Z) (days : Z) (root : list XmlRecord) (sessions : list SleepSession)
    (s : DailySleep) (heart_data : list DailyHeart) :
  process_sleep_data now days root = Ok sessions →
  s ∈ aggregate_daily_sleep sessions →
  (∀ x, x ∈ sessions →
     ss_duration_minutes x
       = py_round (raw_minutes (ss_start_time x) (ss_end_time x)) 2) ∧
  (d_time_in_bed_hours s
     = py_round (stage_minutes InBed (night (d_date s) sessions) / 60) 2 ∧
   d_total_sleep_hours s
     = py_round ((stage_minutes Asleep (night (d_date s) sessions)
                  + stage_minutes Core (night (d_date s) sessions)
                  + stage_minutes Deep (night (d_date s) sessions)
                  + stage_minutes REM (night (d_date s) sessions)) / 60) 2 ∧
   d_awake_minutes s = py_round (stage_minutes Awake (night (d_date s) sessions)) 1 ∧
   d_core_sleep_hours s
     = py_round (stage_minutes Core (night (d_date s) sessions) / 60) 2 ∧
   d_deep_sleep_hours s
     = py_round (stage_minutes Deep (night (d_date s) sessions) / 60) 2 ∧
   d_rem_sleep_hours s
     = py_round (stage_minutes REM (night (d_date s) sessions) / 60) 2) ∧
  (∃ row, row ∈ generate_spreadsheet (aggregate_daily_sleep sessions) heart_data ∧
          row_date row = d_date s) ∧
  (∀ row, row ∈ generate_spreadsheet (aggregate_daily_sleep sessions) heart_data →
          row_date row = d_date s → row_sleep row = sleep_cells s).
Proof.
  intros H Hs. split; [|split].
  - intros x Hx. apply process_sleep_data_Ok in H as (c & _ & HF).
    destruct (Forall2_elem_of_r _ _ _ _ HF Hx) as (r & _ & Hr).
    by apply (session_of_duration r).
  - exact (stage_fields_of_night sessions s Hs).
  - by apply generate_spreadsheet_sleep_cells.
Qed.

Lemma eight_awake_seconds_rounded_twice :
  process_sleep_data nap_now 30 eight_awake_seconds = Ok eight_awake_sessions ∧
  eight_awake_summary ∈ aggregate_daily_sleep eight_awake_sessions ∧
  d_awake_minutes eight_awake_summary
    = py_round (stage_minutes Awake eight_awake_sessions) 1 ∧
  ∃ row, row ∈ generate_spreadsheet (aggregate_daily_sleep eight_awake_sessions) [] ∧
         c_awake_minutes (row_sleep row) = FloatCell 0.2%float.
Proof.
  assert (H : process_sleep_data nap_now 30 eight_awake_seconds = Ok eight_awake_sessions)
    by (vm_compute; reflexivity).
  assert (Hs : eight_awake_summary ∈ aggregate_daily_sleep eight_awake_sessions).
  { vm_compute. constructor. }
  split; [exact H|]. split; [exact Hs|].
  destruct (sleep_fields_rounded_at_extraction_and_summary nap_now 30
              eight_awake_seconds eight_awake_sessions eight_awake_summary [] H Hs)
    as (_ & (_ & _ & Ha & _) & (row & Hrow & Hd) & Hcells).
  split; [exact Ha|].
  exists row. split; [exact Hrow|]. by rewrite (Hcells row Hrow Hd).
Defined.

(** ** Cutoffs *)

Lemma cutoff_date_Ok now days cutoff :
  cutoff_date now days = Ok cutoff →
  cutoff = now - days * SECONDS_PER_DAY * US_PER_SECOND.
Proof.
  unfold cutoff_date. destruct (_ <? _); [done|].
  destruct (_ || _); [done|]. by intros [= <-].
Qed.

Lemma session_of_kept cutoff r x :
  is_Some (sleep_kept cutoff r) → session_of r x →
  cutoff <= ss_start_time x * US_PER_SECOND.
Proof.
  intros [[s e] Hk] (s' & e' & v & Hs & He & _ & ->).
  apply sleep_kept_Some in Hk as (Hs2 & _ & Hle). simpl. congruence.
Qed.

Lemma measurement_of_kept cutoff r m :
  is_Some (quantity_kept cutoff r) → measurement_of r m →
  cutoff <= m_datetime m * US_PER_SECOND.
Proof.
  intros [s Hk] (s' & x & Hs & _ & ->).
  apply quantity_kept_Some in Hk as (Hs2 & Hle). simpl. congruence.
Qed.

(** ** Corrupt values *)

Lemma findall_app ty l1 l2 : findall ty (l1 ++ l2) = findall ty l1 ++ findall ty l2.
Proof. apply filter_app. Qed.

Lemma findall_cons ty r l :
  findall ty (r :: l) = if decide (r_type r = ty) then r :: findall ty l else findall ty l.
Proof. unfold findall. by rewrite filter_cons. Qed.

Lemma quantity_loop_app cutoff l1 l2 :
  quantity_loop cutoff (l1 ++ l2) =
    (a ← quantity_loop cutoff l1; b ← quantity_loop cutoff l2; mret (a ++ b)).
Proof.
  induction l1 as [|r l1 IH]; simpl.
  - by destruct (quantity_loop cutoff l2).
  - rewrite IH. destruct (r_startDate r) as [s|]; [|done].
    destruct (before s cutoff); [done|].
    destruct (py_float (r_value r)); simpl; [|done].
    destruct (quantity_loop cutoff l1); simpl; [|done].
    by destruct (quantity_loop cutoff l2).
Qed.

(** A record the filter of a cardiac loop does not keep leaves no trace. *)
Lemma quantity_loop_drop cutoff l1 r l2 :
  quantity_kept cutoff r = None →
  quantity_loop cutoff (l1 ++ r :: l2) = quantity_loop cutoff (l1 ++ l2).
Proof.
  intros Hk. rewrite !quantity_loop_app. by rewrite (quantity_loop_skip _ _ _ Hk).
Qed.

Lemma in_window_kept now days cutoff r s :
  cutoff_date now days = Ok cutoff → r_startDate r = Some s →
  in_window now days s → quantity_kept cutoff r = Some s.
Proof.
  intros Hc Hs Hw. apply cutoff_date_Ok in Hc. apply quantity_kept_Some.
  split; [done|]. unfold in_window in Hw. lia.
Qed.

Lemma out_of_window_dropped now days cutoff r :
  cutoff_date now days = Ok cutoff →
  (∀ s, r_startDate r = Some s → ¬ in_window now days s) →
  quantity_kept cutoff r = None.
Proof.
  intros Hc Hout. apply cutoff_date_Ok in Hc.
  destruct (quantity_kept cutoff r) as [s|] eqn:Hk; [|done].
  apply quantity_kept_Some in Hk as [Hs Hle]. destruct (Hout s Hs).
  unfold in_window. lia.
Qed.

(** A cardiac extractor stops at a kept record whose value is missing or is
    no number. *)
Lemma process_quantity_corrupt ty now days root r s e :
  r ∈ root → r_type r = ty → r_startDate r = Some s → in_window now days s →
  py_float (r_value r) = Raise e →
  ∃ e', process_quantity ty now days root = Raise e'.
Proof.
  intros Hr Hty Hs Hw Hv. unfold process_quantity.
  destruct (cutoff_date now days) as [c|e0] eqn:Hc; [|by exists e0]. simpl.
  pose proof (quantity_loop_spec c (findall ty root)) as Hspec.
  destruct (quantity_loop c (findall ty root)) as [ms|e']; [|by exists e'].
  assert (Hin : r ∈ filter (fun r => is_Some (quantity_kept c r)) (findall ty root)).
  { apply list_elem_of_filter. split; [|by apply elem_of_findall].
    by rewrite (in_window_kept now days c r s). }
  destruct (Forall2_elem_of_l _ _ _ _ Hspec Hin) as (m & _ & (s' & x & _ & Hx & _)).
  congruence.
Qed.

(** It returns when no kept record is corrupt. *)
Lemma process_quantity_sound ty now days root cutoff :
  cutoff_date now days = Ok cutoff →
  (∀ r, r ∈ findall ty root → is_Some (quantity_kept cutoff r) →
        ∃ x, py_float (r_value r) = Ok x) →
  ∃ measurements, process_quantity ty now days root = Ok measurements.
Proof.
  intros Hc Hall. unfold process_quantity. rewrite Hc. simpl.
  pose proof (quantity_loop_spec cutoff (findall ty root)) as Hspec.
  destruct (quantity_loop cutoff (findall ty root)) as [ms|e']; [by exists ms|].
  destruct Hspec as (r & Hr & Hk & Hv).
  destruct (Hall r Hr Hk) as [x Hx]. congruence.
Qed.

(** The run returns rows only when its four extractors return. *)
Lemma main_Ok clk days root rows :
  main clk days root = Ok rows →
  ∃ sleep_sessions heart_rates resting_hrs hrvs,
    process_sleep_data (now_sleep clk) days root = Ok sleep_sessions ∧
    process_heart_rate_data (now_heart_rate clk) days root = Ok heart_rates ∧
    process_resting_heart_rate (now_resting clk) days root = Ok resting_hrs ∧
    process_hrv_data (now_hrv clk) days root = Ok hrvs ∧
    rows = generate_spreadsheet (aggregate_daily_sleep sleep_sessions)
             (aggregate_daily_heart_data heart_rates resting_hrs hrvs).
Proof.
  unfold main.
  destruct (process_sleep_data _ _ _) as [ss|]; [|done]. simpl.
  destruct (process_heart_rate_data _ _ _) as [hr|]; [|done]. simpl.
  destruct (process_resting_heart_rate _ _ _) as [rh|]; [|done]. simpl.
  destruct (process_hrv_data _ _ _) as [hv|]; [|done]. simpl.
  intros [= <-]. by exists ss, hr, rh, hv.
Qed.

Lemma main_stops clk days root ty now e :
  reading clk ty = Some now → process_quantity ty now days root = Raise e →
  ∃ e', main clk days root = Raise e'.
Proof.
  intros Hread Hraise.
  destruct (main clk days root) as [rows|e'] eqn:Hmain; [|by exists e'].
  apply main_Ok in Hmain as (ss & hr & rh & hv & _ & Hhr & Hrh & Hhv & _).
  unfold reading in Hread.
  unfold process_heart_rate_data, process_resting_heart_rate, process_hrv_data in *.
  repeat case_decide; simplify_eq; congruence.
Qed.

(** C3, as stated, fails: a heart rate whose value is no number stops the whole
    run with ValueError (a missing value, with TypeError) and no row is
    written, though the run of the other record alone gives its row. *)
Lemma corrupt_value_stops_run :
  main (frozen nap_now) 30 [good_heart_rate; corrupt_heart_rate] = Raise ValueError ∧
  main (frozen nap_now) 30 [good_heart_rate; missing_hrv] = Raise TypeError ∧
  main (frozen nap_now) 30 [good_heart_rate] = Ok [good_heart_rate_row].
Proof. repeat split; vm_compute; reflexivity. Qed.

(** C3, amended: a cardiac record inside the window of its extractor whose
    value is missing or is no number stops that extractor, and with it the
    whole run: no row is written.  Only a record the filter drops (its start
    does not parse or lies before the cutoff) is skipped, whatever its value;
    an extractor none of whose kept records is corrupt returns. *)
Theorem corrupt_cardiac_value_stops_run
    (clk : Clock) (days : Z) (root : list XmlRecord) (r : XmlRecord)
    (now : Z) (s : Z) (e : exn) :
  r ∈ root → reading clk (r_type r) = Some now →
  r_startDate r = Some s → in_window now days s →
  py_float (r_value r) = Raise e →
  (∃ e', process_quantity (r_type r) now days root = Raise e') ∧
  (∃ e', main clk days root = Raise e') ∧
  (∀ ty cutoff l1 r' l2, cutoff_date now days = Ok cutoff →
     (∀ s', r_startDate r' = Some s' → ¬ in_window now days s') →
     process_quantity ty now days (l1 ++ r' :: l2)
       = process_quantity ty now days (l1 ++ l2)) ∧
  (∀ ty cutoff root', cutoff_date now days = Ok cutoff →
     (∀ r', r' ∈ findall ty root' → is_Some (quantity_kept cutoff r') →
            ∃ x, py_float (r_value r') = Ok x) →
     ∃ measurements, process_quantity ty now days root' = Ok measurements).
Proof.
  intros Hr Hread Hs Hw Hv.
  destruct (process_quantity_corrupt (r_type r) now days root r s e Hr eq_refl Hs Hw Hv)
    as [e' He'].
  split; [by exists e'|]. split; [by eapply main_stops|]. split.
  - intros ty cutoff l1 r' l2 Hc Hout. unfold process_quantity. rewrite Hc. simpl.
    pose proof (out_of_window_dropped now days cutoff r' Hc Hout) as Hk.
    rewrite !findall_app, findall_cons.
    case_decide; [|done]. by apply quantity_loop_drop.
  - intros ty cutoff root' Hc Hall. by eapply process_quantity_sound.
Qed.

Lemma corrupt_heart_rate_stops_run :
  corrupt_heart_rate ∈ [good_heart_rate; corrupt_heart_rate] ∧
  reading (frozen nap_now) (r_type corrupt_heart_rate) = Some nap_now ∧
  in_window nap_now 30 (mk_datetime 2024 1 5 9 5 0) ∧
  py_float (r_value corrupt_heart_rate) = Raise ValueError ∧
  (∃ e', main (frozen nap_now) 30 [good_heart_rate; corrupt_heart_rate] = Raise e') ∧
  process_quantity HEART_RATE nap_now 30 [good_heart_rate; old_corrupt_heart_rate]
    = process_quantity HEART_RATE nap_now 30 [good_heart_rate].
Proof.
  assert (H1 : corrupt_heart_rate ∈ [good_heart_rate; corrupt_heart_rate])
    by (right; left).
  assert (H2 : reading (frozen nap_now) (r_type corrupt_heart_rate) = Some nap_now)
    by reflexivity.
  assert (H3 : in_window nap_now 30 (mk_datetime 2024 1 5 9 5 0))
    by (vm_compute; discriminate).
  assert (H4 : py_float (r_value corrupt_heart_rate) = Raise ValueError)
    by reflexivity.
  split; [exact H1|]. split; [exact H2|]. split; [exact H3|]. split; [exact H4|].
  destruct (corrupt_cardiac_value_stops_run (frozen nap_now) 30
              [good_heart_rate; corrupt_heart_rate] corrupt_heart_rate nap_now
              _ _ H1 H2 eq_refl H3 H4)
    as (_ & Hmain & Hdrop & _).
  split; [exact Hmain|].
  apply (Hdrop HEART_RATE (mk_clock 2023 12 11 8 0 0 250000)
           [good_heart_rate] old_corrupt_heart_rate []).
  - vm_compute; reflexivity.
  - intros s' [= <-]. vm_compute. intros H. apply H. reflexivity.
Defined.

(** ** The clock *)

(** Each extractor depends on its reading of the clock only through the
    decisions of its filter. *)
Lemma process_sleep_data_same_decisions days root now now' :
  same_decisions SLEEP_ANALYSIS days root now now' →
  process_sleep_data now days root = process_sleep_data now' days root.
Proof.
  intros (c & c' & Hc & Hc' & H). unfold process_sleep_data.
  rewrite Hc, Hc'. simpl. by apply sleep_loop_ext.
Qed.

Lemma process_quantity_same_decisions ty days root now now' :
  same_decisions ty days root now now' →
  process_quantity ty now days root = process_quantity ty now' days root.
Proof.
  intros (c & c' & Hc & Hc' & H). unfold process_quantity.
  rewrite Hc, Hc'. simpl. by apply quantity_loop_ext.
Qed.

(** C9, as stated, fails: nothing injects a reference time, each extractor
    reads the clock itself.  Two runs on the same records that start at the
    same instant differ when the clock moves on by a microsecond between the
    readings: the heart rate taken thirty days before the start is inside the
    window of the first run and before the cutoff of the second. *)
Lemma clock_read_by_each_extractor :
  now_sleep (frozen boundary_now) = now_sleep (ticking boundary_now) ∧
  main (frozen boundary_now) 30 boundary_records
    = Ok [good_heart_rate_row; boundary_sleep_row] ∧
  main (ticking boundary_now) 30 boundary_records = Ok [boundary_sleep_row].
Proof. repeat split; vm_compute; reflexivity. Qed.

(** C9, amended: the rows are a function of the records, the number of days
    and the four readings of the clock, one by each extractor: two runs on
    the same records and days give the same result whenever their readings
    lead each extractor to the same decisions on the records of its type, as
    they do when the readings agree. *)
Theorem main_determined_by_window_decisions
    (clk clk' : Clock) (days : Z) (root : list XmlRecord) :
  same_decisions SLEEP_ANALYSIS days root (now_sleep clk) (now_sleep clk') →
  same_decisions HEART_RATE days root (now_heart_rate clk) (now_heart_rate clk') →
  same_decisions RESTING_HEART_RATE days root (now_resting clk) (now_resting clk') →
  same_decisions HRV_SDNN days root (now_hrv clk) (now_hrv clk') →
  main clk days root = main clk' days root.
Proof.
  intros Hs Hh Hr Hv. unfold main.
  rewrite (process_sleep_data_same_decisions _ _ _ _ Hs).
  unfold process_heart_rate_data, process_resting_heart_rate, process_hrv_data.
  rewrite (process_quantity_same_decisions _ _ _ _ _ Hh).
  rewrite (process_quantity_same_decisions _ _ _ _ _ Hr).
  by rewrite (process_quantity_same_decisions _ _ _ _ _ Hv).
Qed.

(** Sixty days back, the frozen and the ticking clock decide alike. *)
Lemma same_decisions_sixty_days :
  same_decisions SLEEP_ANALYSIS 60 boundary_records boundary_now boundary_now ∧
  same_decisions HEART_RATE 60 boundary_records boundary_now (boundary_now + 1) ∧
  same_decisions RESTING_HEART_RATE 60 boundary_records boundary_now (boundary_now + 2) ∧
  same_decisions HRV_SDNN 60 boundary_records boundary_now (boundary_now + 3) ∧
  main (frozen boundary_now) 60 boundary_records
    = main (ticking boundary_now) 60 boundary_records.
Proof.
  assert (H1 : same_decisions SLEEP_ANALYSIS 60 boundary_records boundary_now boundary_now).
  { eexists _, _. split; [vm_compute; reflexivity|]. split; [vm_compute; reflexivity|].
    reflexivity. }
  assert (H2 : same_decisions HEART_RATE 60 boundary_records
                 boundary_now (boundary_now + 1)).
  { eexists _, _. split; [vm_compute; reflexivity|]. split; [vm_compute; reflexivity|].
    intros r s Hr Hs.
    change (findall HEART_RATE boundary_records) with [boundary_heart_rate] in Hr.
    apply list_elem_of_singleton in Hr. subst r. injection Hs as <-.
    vm_compute. reflexivity. }
  assert (H3 : same_decisions RESTING_HEART_RATE 60 boundary_records
                 boundary_now (boundary_now + 2)).
  { eexists _, _. split; [vm_compute; reflexivity|]. split; [vm_compute; reflexivity|].
    intros r s Hr Hs.
    change (findall RESTING_HEART_RATE boundary_records) with (@nil XmlRecord) in Hr.
    destruct (not_elem_of_nil _ Hr). }
  assert (H4 : same_decisions HRV_SDNN 60 boundary_records
                 boundary_now (boundary_now + 3)).
  { eexists _, _. split; [vm_compute; reflexivity|]. split; [vm_compute; reflexivity|].
    intros r s Hr Hs.
    change (findall HRV_SDNN boundary_records) with (@nil XmlRecord) in Hr.
    destruct (not_elem_of_nil _ Hr). }
  split; [exact H1|]. split; [exact H2|]. split; [exact H3|]. split; [exact H4|].
  exact (main_determined_by_window_decisions (frozen boundary_now)
           (ticking boundary_now) 60 boundary_records H1 H2 H3 H4).
Defined.

(** ** From rows back to records *)

Lemma group_fold_is_Some {A B} (key : A → Z) (init : Z → B) (upd : A → B → B)
    (l : list A) (m : gmap Z B) (d : Z) :
  is_Some (foldl (group_step key init upd) m l !! d) →
  is_Some (m !! d) ∨ ∃ x, x ∈ l ∧ key x = d.
Proof.
  rewrite group_fold_lookup.
  destruct (group_of key d l) as [|x g] eqn:E; [by left|].
  intros _. right. exists x. apply (group_of_elem key d l x). rewrite E. left.
Qed.

Lemma add_hr_value_group :
  add_hr_value = group_step m_date (fun _ => []) (fun hr vs => vs ++ [m_value hr]).
Proof. reflexivity. Qed.

(** A cardiac summary has the date of one of the measurements. *)
Lemma aggregate_daily_heart_data_date hrs rhrs hrvs h :
  h ∈ aggregate_daily_heart_data hrs rhrs hrvs →
  ∃ m, (m ∈ hrs ∨ m ∈ rhrs ∨ m ∈ hrvs) ∧ m_date m = h_date h.
Proof.
  intros Hh. apply elem_of_aggregate_daily_heart_data in Hh.
  assert (Hsome : is_Some (daily_heart_map hrs rhrs hrvs !! h_date h)) by (by rewrite Hh).
  unfold daily_heart_map in Hsome. rewrite add_hrv_group, add_resting_hr_group in Hsome.
  apply group_fold_is_Some in Hsome as [Hsome|(m & Hm & Hd)]; [|by exists m; auto].
  apply group_fold_is_Some in Hsome as [Hsome|(m & Hm & Hd)]; [|by exists m; auto].
  rewrite map_lookup_imap in Hsome.
  assert (Hv : is_Some (foldl add_hr_value ∅ hrs !! h_date h)).
  { destruct (foldl add_hr_value ∅ hrs !! h_date h); [by eexists|].
    by destruct Hsome. }
  rewrite add_hr_value_group in Hv.
  apply group_fold_is_Some in Hv as [Hv|(m & Hm & Hd)]; [|by exists m; auto].
  rewrite lookup_empty in Hv. by destruct Hv.
Qed.

(** A sleep summary has the date of one of the sessions. *)
Lemma aggregate_daily_sleep_date sessions s :
  s ∈ aggregate_daily_sleep sessions → ∃ x, x ∈ sessions ∧ ss_date x = d_date s.
Proof.
  intros Hs. apply elem_of_aggregate_daily_sleep in Hs as [Hg _].
  destruct (night (d_date s) sessions) as [|x g] eqn:E; [done|].
  exists x. apply night_elem. rewrite E. left.
Qed.

(** A session comes from a sleep record inside the window of its extractor. *)
Lemma process_sleep_data_origin now days root sessions x :
  process_sleep_data now days root = Ok sessions → x ∈ sessions →
  ∃ r s, r ∈ root ∧ r_type r = SLEEP_ANALYSIS ∧ r_startDate r = Some s ∧
         in_window now days s ∧ date_of s = ss_date x.
Proof.
  intros H Hx. apply process_sleep_data_Ok in H as (c & Hc & HF).
  destruct (Forall2_elem_of_r _ _ _ _ HF Hx) as (r & Hr & Hrx).
  apply list_elem_of_filter in Hr as [Hk Hr]. apply elem_of_findall in Hr as [Hr Hty].
  pose proof (session_of_kept c r x Hk Hrx) as Hle.
  destruct Hrx as (s & e & v & Hs & _ & _ & ->). simpl in *.
  exists r, s. repeat split; try done.
  apply cutoff_date_Ok in Hc. unfold in_window. lia.
Qed.

(** A measurement comes from a record of its type inside the window. *)
Lemma process_quantity_origin ty now days root measurements m :
  process_quantity ty now days root = Ok measurements → m ∈ measurements →
  ∃ r s, r ∈ root ∧ r_type r = ty ∧ r_startDate r = Some s ∧
         in_window now days s ∧ date_of s = m_date m.
Proof.
  intros H Hm. apply process_quantity_Ok in H as (c & Hc & HF).
  destruct (Forall2_elem_of_r _ _ _ _ HF Hm) as (r & Hr & Hrm).
  apply list_elem_of_filter in Hr as [Hk Hr]. apply elem_of_findall in Hr as [Hr Hty].
  pose proof (measurement_of_kept c r m Hk Hrm) as Hle.
  destruct Hrm as (s & x & Hs & _ & ->). simpl in *.
  exists r, s. repeat split; try done.
  apply cutoff_date_Ok in Hc. unfold in_window. lia.
Qed.

(** Every row of a run has the date of a record inside the window of its
    extractor. *)
Lemma main_row_origin clk days root rows row :
  main clk days root = Ok rows → row ∈ rows →
  ∃ r s now, r ∈ root ∧ r_startDate r = Some s ∧ date_of s = row_date row ∧
             window_reading clk (r_type r) = Some now ∧ in_window now days s.
Proof.
  intros H Hrow. apply main_Ok in H as (ss & hr & rh & hv & Hss & Hhr & Hrh & Hhv & ->).
  assert (Hd : row_date row ∈ row_date <$>
            generate_spreadsheet (aggregate_daily_sleep ss)
              (aggregate_daily_heart_data hr rh hv)).
  { apply list_elem_of_fmap. by exists row. }
  rewrite generate_spreadsheet_dates in Hd. apply sorted_elements_spec in Hd.
  apply elem_of_union in Hd as [Hd|Hd]; apply elem_of_list_to_set in Hd;
    apply list_elem_of_fmap in Hd as (su & Hdate & Hsu).
  - destruct (aggregate_daily_sleep_date ss su Hsu) as (x & Hx & Hxd).
    destruct (process_sleep_data_origin _ _ _ _ x Hss Hx) as (r & s & Hr & Hty & Hs & Hw & Hds).
    exists r, s, (now_sleep clk). repeat split; try done; [congruence|].
    by rewrite Hty.
  - destruct (aggregate_daily_heart_data_date hr rh hv su Hsu) as (m & Hm & Hmd).
    destruct Hm as [Hm|[Hm|Hm]].
    + destruct (process_quantity_origin _ _ _ _ _ m Hhr Hm) as (r & s & Hr & Hty & Hs & Hw & Hds).
      exists r, s, (now_heart_rate clk). repeat split; try done; [congruence|].
      by rewrite Hty.
    + destruct (process_quantity_origin _ _ _ _ _ m Hrh Hm) as (r & s & Hr & Hty & Hs & Hw & Hds).
      exists r, s, (now_resting clk). repeat split; try done; [congruence|].
      by rewrite Hty.
    + destruct (process_quantity_origin _ _ _ _ _ m Hhv Hm) as (r & s & Hr & Hty & Hs & Hw & Hds).
      exists r, s, (now_hrv clk). repeat split; try done; [congruence|].
      by rewrite Hty.
Qed.

(** ** The window *)

(** C2, as stated, fails: a sleep record whose start is inside the window is
    dropped when its end does not parse; and a number of days that takes the
    cutoff before the first representable datetime stops the run, so that
    nothing is included. *)
Lemma in_window_record_dropped :
  cutoff_date nap_now 30 = Ok (mk_clock 2023 12 11 8 0 0 250000) ∧
  r_startDate endless_record = Some (mk_datetime 2024 1 5 23 0 0) ∧
  mk_clock 2023 12 11 8 0 0 250000 <= mk_datetime 2024 1 5 23 0 0 * US_PER_SECOND ∧
  process_sleep_data nap_now 30 [endless_record] = Ok [] ∧
  0 <= 800000 ∧
  process_sleep_data nap_now 800000 [nap_record] = Raise OverflowError.
Proof.
  repeat split; try (vm_compute; reflexivity); vm_compute; discriminate.
Qed.

(** C2, amended: with the cutoff [now - days_back] days of an extractor (each
    extractor reads the clock itself), a sleep record is turned into a
    session if and only if its start and its end parse and the start is not
    before the cutoff, a cardiac record into a measurement if and only if its
    start parses and is not before the cutoff: the sessions (measurements)
    answer, one for one and in order, to the records so kept.  No session and
    no measurement starts before the cutoff. *)
Theorem window_filter (now : Z) (days : Z) (root : list XmlRecord) (cutoff : Z) :
  cutoff_date now days = Ok cutoff →
  cutoff = now - days * SECONDS_PER_DAY * US_PER_SECOND ∧
  (∀ r s e, sleep_kept cutoff r = Some (s, e) ↔
     r_startDate r = Some s ∧ r_endDate r = Some e ∧ cutoff <= s * US_PER_SECOND) ∧
  (∀ r s, quantity_kept cutoff r = Some s ↔
     r_startDate r = Some s ∧ cutoff <= s * US_PER_SECOND) ∧
  (∀ sessions, process_sleep_data now days root = Ok sessions →
     Forall2 session_of
       (filter (fun r => is_Some (sleep_kept cutoff r)) (findall SLEEP_ANALYSIS root))
       sessions ∧
     ∀ x, x ∈ sessions → cutoff <= ss_start_time x * US_PER_SECOND) ∧
  (∀ ty measurements, process_quantity ty now days root = Ok measurements →
     Forall2 measurement_of
       (filter (fun r => is_Some (quantity_kept cutoff r)) (findall ty root))
       measurements ∧
     ∀ m, m ∈ measurements → cutoff <= m_datetime m * US_PER_SECOND) ∧
  (∀ clk rows row, main clk days root = Ok rows → row ∈ rows →
     ∃ r s now', r ∈ root ∧ r_startDate r = Some s ∧ date_of s = row_date row ∧
                 window_reading clk (r_type r) = Some now' ∧ in_window now' days s).
Proof.
  intros Hc. split; [by apply cutoff_date_Ok|].
  split; [intros; apply sleep_kept_Some|].
  split; [intros; apply quantity_kept_Some|]. split; [|split].
  - intros sessions H. apply process_sleep_data_Ok in H as (c & Hc' & HF).
    assert (c = cutoff) as -> by congruence. split; [done|].
    intros x Hx. destruct (Forall2_elem_of_r _ _ _ _ HF Hx) as (r & Hr & Hrx).
    apply list_elem_of_filter in Hr as [Hk _]. by apply (session_of_kept cutoff r).
  - intros ty ms H. apply process_quantity_Ok in H as (c & Hc' & HF).
    assert (c = cutoff) as -> by congruence. split; [done|].
    intros m Hm. destruct (Forall2_elem_of_r _ _ _ _ HF Hm) as (r & Hr & Hrm).
    apply list_elem_of_filter in Hr as [Hk _]. by apply (measurement_of_kept cutoff r).
  - intros clk rows row. apply main_row_origin.
Qed.

Lemma window_filter_of_nap :
  cutoff_date nap_now 30 = Ok (mk_clock 2023 12 11 8 0 0 250000) ∧
  sleep_kept (mk_clock 2023 12 11 8 0 0 250000) nap_record
    = Some (mk_datetime 2024 1 5 21 0 0, mk_datetime 2024 1 5 21 20 0) ∧
  sleep_kept (mk_clock 2023 12 11 8 0 0 250000) endless_record = None ∧
  ∀ x, x ∈ [nap_session] →
       mk_clock 2023 12 11 8 0 0 250000 <= ss_start_time x * US_PER_SECOND.
Proof.
  assert (H : cutoff_date nap_now 30 = Ok (mk_clock 2023 12 11 8 0 0 250000))
    by (vm_compute; reflexivity).
  split; [exact H|].
  destruct (window_filter nap_now 30 [nap_record; endless_record] _ H)
    as (_ & Hkept & _ & Hsleep & _ & _).
  split.
  { apply Hkept. repeat split; vm_compute; try reflexivity; discriminate. }
  split; [vm_compute; reflexivity|].
  apply (Hsleep [nap_session]). vm_compute; reflexivity.
Defined.

(** * Further properties *)

(** ** Heart rate statistics *)

Lemma hr_values_fold g vs :
  foldl (fun b (x : Measurement) => b ++ [m_value x]) vs g = vs ++ (m_value <$> g).
Proof.
  revert vs. induction g as [|x g IH]; intros vs; simpl.
  - by rewrite app_nil_r.
  - rewrite IH. by rewrite <- app_assoc.
Qed.

(** The list of values the first loop files under a date. *)
Lemma hr_values_lookup hrs d :
  foldl add_hr_value ∅ hrs !! d =
    match hr_values_of d hrs with
    | [] => None
    | vs => Some vs
    end.
Proof.
  rewrite add_hr_value_group, group_fold_empty. unfold hr_values_of.
  destruct (group_of m_date d hrs) as [|x g]; [done|].
  by rewrite hr_values_fold.
Qed.

Lemma heart_stats_map_lookup hrs d :
  heart_stats_map hrs !! d =
    match hr_values_of d hrs with
    | [] => None
    | vs => Some (heart_stats d vs)
    end.
Proof.
  unfold heart_stats_map. rewrite map_lookup_imap, hr_values_lookup.
  by destruct (hr_values_of d hrs).
Qed.

(** The entry of a date before the last two loops. *)
Lemma heart_entry_stats hrs d :
  heart_entry (heart_stats_map hrs) d = heart_stats d (hr_values_of d hrs).
Proof.
  unfold heart_entry. rewrite heart_stats_map_lookup.
  by destruct (hr_values_of d hrs).
Qed.


(** The entry of a date at the end of the three loops. *)
Lemma daily_heart_map_lookup hrs rhrs hrvs d :
  daily_heart_map hrs rhrs hrvs !! d =
    match hr_values_of d hrs, group_of m_date d rhrs, group_of m_date d hrvs with
    | [], [], [] => None
    | _, _, _ => Some (heart_summary_of d hrs rhrs hrvs)
    end.
Proof.
  unfold daily_heart_map, heart_summary_of. fold (heart_stats_map hrs).
  rewrite add_hrv_group, add_resting_hr_group.
  rewrite group_fold_lookup.
  assert (Hentry : default (default_heart d)
            (foldl (group_step m_date default_heart resting_update)
               (heart_stats_map hrs) rhrs !! d)
          = foldl (fun h m => resting_update m h)
              (heart_stats d (hr_values_of d hrs)) (group_of m_date d rhrs)).
  { rewrite group_fold_lookup. fold (heart_entry (heart_stats_map hrs) d).
    rewrite heart_entry_stats.
    destruct (group_of m_date d rhrs) as [|x g]; [|done]. simpl.
    rewrite <- heart_entry_stats. done. }
  destruct (group_of m_date d hrvs) as [|y gv] eqn:Ev.
  - rewrite group_fold_lookup. fold (heart_entry (heart_stats_map hrs) d).
    rewrite heart_entry_stats.
    destruct (group_of m_date d rhrs) as [|x g] eqn:Er.
    + rewrite heart_stats_map_lookup. by destruct (hr_values_of d hrs).
    + by destruct (hr_values_of d hrs).
  - rewrite Hentry. by destruct (hr_values_of d hrs), (group_of m_date d rhrs).
Qed.

Lemma heart_summary_of_date d hrs rhrs hrvs :
  h_date (heart_summary_of d hrs rhrs hrvs) = d.
Proof.
  unfold heart_summary_of.
  rewrite (h_date_fold hrv_update) by done.
  rewrite (h_date_fold resting_update) by done.
  apply h_date_heart_stats.
Qed.

Lemma hr_fields_fold (upd : Measurement → DailyHeart → DailyHeart) g h :
  (∀ m h, hr_fields (upd m h) = hr_fields h) →
  hr_fields (foldl (fun h m => upd m h) h g) = hr_fields h.
Proof.
  intros Hupd. revert h. induction g as [|x g IH]; intros h; simpl; [done|].
  by rewrite IH, Hupd.
Qed.

Lemma heart_summary_of_hr_fields d hrs rhrs hrvs :
  hr_fields (heart_summary_of d hrs rhrs hrvs)
    = hr_fields (heart_stats d (hr_values_of d hrs)).
Proof.
  unfold heart_summary_of.
  rewrite (hr_fields_fold hrv_update) by done.
  by rewrite (hr_fields_fold resting_update) by done.
Qed.

Lemma resting_fold_value g h :
  h_resting_hr (foldl (fun h m => resting_update m h) h g)
    = match last g with Some m => Some (m_value m) | None => h_resting_hr h end.
Proof.
  revert h. induction g as [|x g IH]; intros h; simpl; [done|].
  rewrite IH, last_cons. by destruct (last g).
Qed.

Lemma hrv_fold_value g h :
  h_hrv (foldl (fun h m => hrv_update m h) h g)
    = match last g with Some m => Some (m_value m) | None => h_hrv h end.
Proof.
  revert h. induction g as [|x g IH]; intros h; simpl; [done|].
  rewrite IH, last_cons. by destruct (last g).
Qed.

Lemma hrv_fold_resting g h :
  h_hrv (foldl (fun h m => resting_update m h) h g) = h_hrv h.
Proof. revert h. induction g as [|x g IH]; intros h; simpl; [done | by rewrite IH]. Qed.

Lemma heart_summary_of_resting d hrs rhrs hrvs :
  h_resting_hr (heart_summary_of d hrs rhrs hrvs)
    = m_value <$> last (group_of m_date d rhrs).
Proof.
  unfold heart_summary_of. rewrite resting_fold_hrv, resting_fold_value.
  destruct (last _); [done|]. by destruct (hr_values_of d hrs).
Qed.

Lemma heart_summary_of_hrv d hrs rhrs hrvs :
  h_hrv (heart_summary_of d hrs rhrs hrvs) = m_value <$> last (group_of m_date d hrvs).
Proof.
  unfold heart_summary_of. rewrite hrv_fold_value.
  destruct (last _); [done|]. rewrite hrv_fold_resting.
  by destruct (hr_values_of d hrs).
Qed.

(** A summary is the summary of its date. *)
Lemma aggregate_daily_heart_data_inv hrs rhrs hrvs h :
  h ∈ aggregate_daily_heart_data hrs rhrs hrvs →
  h = heart_summary_of (h_date h) hrs rhrs hrvs.
Proof.
  intros Hh. apply elem_of_aggregate_daily_heart_data in Hh.
  rewrite daily_heart_map_lookup in Hh.
  destruct (hr_values_of (h_date h) hrs), (group_of m_date (h_date h) rhrs),
    (group_of m_date (h_date h) hrvs);
    first [done | injection Hh as Hh; exact (eq_sym Hh)].
Qed.





Lemma last_fmap_None {A B} (f : A → B) (l : list A) : f <$> last l = None ↔ l = [].
Proof. rewrite fmap_None. apply last_None. Qed.

(** X3: a field of a cardiac summary is absent exactly when its date has no
    measurement of that kind: no heart rate leaves the statistics at None
    with a count of 0, no resting heart rate leaves [resting_hr] at None, no
    HRV leaves [hrv] at None; no zero stands in for a missing value. *)
Theorem cardiac_field_absent_without_measurement
    (heart_rates resting_hrs hrvs : list Measurement) (h : DailyHeart) :
  h ∈ aggregate_daily_heart_data heart_rates resting_hrs hrvs →
  (h_hr_avg h = None ↔ ∀ m, m ∈ heart_rates → m_date m ≠ h_date h) ∧
  (h_hr_count h = 0 ↔ ∀ m, m ∈ heart_rates → m_date m ≠ h_date h) ∧
  (h_resting_hr h = None ↔ ∀ m, m ∈ resting_hrs → m_date m ≠ h_date h) ∧
  (h_hrv h = None ↔ ∀ m, m ∈ hrvs → m_date m ≠ h_date h) ∧
  ((∃ m, m ∈ heart_rates ∧ m_date m = h_date h) ∨
   (∃ m, m ∈ resting_hrs ∧ m_date m = h_date h) ∨
   (∃ m, m ∈ hrvs ∧ m_date m = h_date h)).
Proof.
  intros Hh. pose proof (aggregate_daily_heart_data_date _ _ _ _ Hh) as (m0 & Hm0 & Hd0).
  apply aggregate_daily_heart_data_inv in Hh.
  pose proof (heart_summary_of_hr_fields (h_date h) heart_rates resting_hrs hrvs) as Hf.
  pose proof (heart_summary_of_resting (h_date h) heart_rates resting_hrs hrvs) as Hr.
  pose proof (heart_summary_of_hrv (h_date h) heart_rates resting_hrs hrvs) as Hv.
  rewrite <- Hh in Hf, Hr, Hv. unfold hr_fields in Hf.
  rewrite <- !(group_of_nil m_date). rewrite Hr, Hv, !last_fmap_None.
  assert (Hvalues : hr_values_of (h_date h) heart_rates = []
                    ↔ group_of m_date (h_date h) heart_rates = []).
  { unfold hr_values_of. split; [apply fmap_nil_inv | by intros ->]. }
  rewrite <- Hvalues.
  destruct (hr_values_of (h_date h) heart_rates) as [|v vs]; simpl in Hf;
    injection Hf as -> _ _ ->.
  - repeat split; try done. destruct Hm0 as [?|[?|?]]; eauto 6.
  - repeat split; try done; try lia. destruct Hm0 as [?|[?|?]]; eauto 6.
Qed.

Lemma three_heart_rates_no_resting_no_hrv :
  three_heart_rates_summary ∈ aggregate_daily_heart_data three_heart_rates [] [] ∧
  h_resting_hr three_heart_rates_summary = None ∧
  h_hrv three_heart_rates_summary = None.
Proof.
  assert (H : three_heart_rates_summary
              ∈ aggregate_daily_heart_data three_heart_rates [] []).
  { vm_compute. constructor. }
  split; [exact H|].
  destruct (cardiac_field_absent_without_measurement three_heart_rates [] []
              three_heart_rates_summary H) as (_ & _ & Hr & Hv & _).
  split.
  - apply Hr. intros m Hm. destruct (not_elem_of_nil _ Hm).
  - apply Hv. intros m Hm. destruct (not_elem_of_nil _ Hm).
Defined.

(** ** One summary a date, in ascending order *)

#[local] Instance heart_le_total : Total heart_le.
Proof. intros a b. unfold heart_le. lia. Qed.

#[local] Instance sleep_le_total : Total sleep_le.
Proof. intros a b. unfold sleep_le. lia. Qed.

Lemma fmap_snd_keyed {A} (key : A → Z) (l : list (Z * A)) :
  (∀ k a, (k, a) ∈ l → key a = k) → key <$> (snd <$> l) = fst <$> l.
Proof.
  induction l as [|[k a] l IH]; intros H; simpl; [done|].
  rewrite (H k a) by left. f_equal. apply IH. intros k' a' Hin. apply H. by right.
Qed.

Lemma sorted_dates_strict {A} (key : A → Z) (R : relation A)
    `{!∀ a b, Decision (R a b)} `{!Total R} (l : list A) :
  (∀ a b, R a b → key a <= key b) → NoDup (key <$> l) →
  StronglySorted Z.lt (key <$> merge_sort R l).
Proof.
  intros HR Hnd. apply StronglySorted_le_lt.
  - apply Sorted_StronglySorted; [apply _|].
    apply Sorted_fmap with (R1 := R); [done|]. by apply Sorted_merge_sort.
  - by rewrite merge_sort_Permutation.
Qed.

Lemma daily_sleep_map_dated sessions d a :
  daily_sleep_map sessions !! d = Some a → acc_date a = d.
Proof.
  rewrite daily_sleep_map_lookup. destruct (night d sessions) as [|x g]; [done|].
  intros [= <-]. apply acc_date_night_entry.
Qed.

Lemma aggregate_daily_sleep_dates sessions d :
  d ∈ d_date <$> aggregate_daily_sleep sessions ↔ d ∈ ss_date <$> sessions.
Proof.
  rewrite !list_elem_of_fmap. split.
  - intros (s & -> & Hs). destruct (aggregate_daily_sleep_date _ _ Hs) as (x & Hx & Hd).
    by exists x.
  - intros (x & -> & Hx). destruct (aggregate_daily_sleep_night _ _ Hx) as (s & Hs & Hd).
    by exists s.
Qed.

(** X4: the sleep aggregator returns one summary for each date that has a
    session and for no other date, in strictly ascending order of date. *)
Theorem aggregate_daily_sleep_one_per_night (sessions : list SleepSession) :
  StronglySorted Z.lt (d_date <$> aggregate_daily_sleep sessions) ∧
  (∀ d, d ∈ d_date <$> aggregate_daily_sleep sessions ↔ d ∈ ss_date <$> sessions) ∧
  (aggregate_daily_sleep sessions = [] ↔ sessions = []).
Proof.
  split; [|split; [apply aggregate_daily_sleep_dates|]].
  - unfold aggregate_daily_sleep. apply sorted_dates_strict; [apply _ | by intros a b H |].
    rewrite <- list_fmap_compose.
    rewrite (fmap_snd_keyed (d_date ∘ format_sleep)).
    + apply NoDup_fst_map_to_list.
    + intros k a Hin. apply elem_of_map_to_list in Hin. simpl.
      by apply (daily_sleep_map_dated sessions).
  - split.
    + intros Hnil. destruct sessions as [|x sessions]; [done|].
      assert (Hx : ss_date x ∈ d_date <$> aggregate_daily_sleep (x :: sessions)).
      { apply aggregate_daily_sleep_dates. simpl. left. }
      rewrite Hnil in Hx. destruct (not_elem_of_nil _ Hx).
    + by intros ->.
Qed.

Lemma aggregate_daily_heart_data_dates heart_rates resting_hrs hrvs d :
  d ∈ h_date <$> aggregate_daily_heart_data heart_rates resting_hrs hrvs
  ↔ d ∈ m_date <$> (heart_rates ++ resting_hrs ++ hrvs).
Proof.
  rewrite !list_elem_of_fmap. split.
  - intros (h & -> & Hh).
    destruct (aggregate_daily_heart_data_date _ _ _ _ Hh) as (m & Hm & Hd).
    exists m. split; [done|]. rewrite !elem_of_app. tauto.
  - intros (m & -> & Hm).
    exists (heart_summary_of (m_date m) heart_rates resting_hrs hrvs).
    rewrite heart_summary_of_date. split; [done|].
    apply elem_of_aggregate_daily_heart_data.
    rewrite heart_summary_of_date, daily_heart_map_lookup.
    assert (Hne : hr_values_of (m_date m) heart_rates ≠ []
                  ∨ group_of m_date (m_date m) resting_hrs ≠ []
                  ∨ group_of m_date (m_date m) hrvs ≠ []).
    { rewrite !elem_of_app in Hm. unfold hr_values_of.
      destruct Hm as [Hm|[Hm|Hm]]; [left|right; left|right; right];
        intros Hnil; [apply fmap_nil_inv in Hnil| |];
        by apply (proj1 (group_of_nil m_date _ _) Hnil m Hm). }
    destruct (hr_values_of (m_date m) heart_rates),
      (group_of m_date (m_date m) resting_hrs), (group_of m_date (m_date m) hrvs);
      try done. by destruct Hne as [?|[?|?]].
Qed.

(** X5: the cardiac aggregator returns one summary for each date that has a
    heart rate, a resting heart rate or an HRV measurement and for no other
    date, in strictly ascending order of date. *)
Theorem aggregate_daily_heart_data_one_per_date
    (heart_rates resting_hrs hrvs : list Measurement) :
  StronglySorted Z.lt
    (h_date <$> aggregate_daily_heart_data heart_rates resting_hrs hrvs) ∧
  (∀ d, d ∈ h_date <$> aggregate_daily_heart_data heart_rates resting_hrs hrvs
        ↔ d ∈ m_date <$> (heart_rates ++ resting_hrs ++ hrvs)).
Proof.
  split; [|apply aggregate_daily_heart_data_dates].
  unfold aggregate_daily_heart_data. apply sorted_dates_strict; [apply _ | by intros a b H |].
  rewrite (fmap_snd_keyed h_date).
  - apply NoDup_fst_map_to_list.
  - intros k a Hin. apply elem_of_map_to_list in Hin.
    by apply (dated_daily_heart_map heart_rates resting_hrs hrvs).
Qed.

(** ** Order of the sessions *)

(** X6: bedtime and wake time of a night do not depend on the order in which
    its sessions arrive: two lists of sessions that are permutations of each
    other give every date the same bedtime and the same wake time. *)
Theorem bedtime_wake_time_order_independent
    (sessions sessions' : list SleepSession) (s s' : DailySleep) :
  sessions ≡ₚ sessions' →
  s ∈ aggregate_daily_sleep sessions → s' ∈ aggregate_daily_sleep sessions' →
  d_date s = d_date s' →
  d_bedtime s = d_bedtime s' ∧ d_wake_time s = d_wake_time s'.
Proof.
  intros Hperm Hs Hs' Hd.
  destruct (night_times sessions s Hs) as (f & l & Hf & Hl & Hall & -> & ->).
  destruct (night_times sessions' s' Hs') as (f' & l' & Hf' & Hl' & Hall' & -> & ->).
  assert (Hmove : ∀ x, x ∈ night (d_date s) sessions ↔ x ∈ night (d_date s') sessions').
  { intros x. rewrite !night_elem, Hd. by rewrite Hperm. }
  pose proof (Hall f' (proj2 (Hmove f') Hf')) as [H1 _].
  pose proof (Hall' f (proj1 (Hmove f) Hf)) as [H2 _].
  pose proof (Hall l' (proj2 (Hmove l') Hl')) as [_ H3].
  pose proof (Hall' l (proj1 (Hmove l) Hl)) as [_ H4].
  split; f_equal; lia.
Qed.

Lemma full_night_reversed :
  reverse full_night ≡ₚ full_night ∧
  full_night_summary ∈ aggregate_daily_sleep (reverse full_night) ∧
  full_night_summary ∈ aggregate_daily_sleep full_night ∧
  d_bedtime full_night_summary = "22:00" ∧ d_wake_time full_night_summary = "00:50".
Proof.
  assert (H1 : reverse full_night ≡ₚ full_night) by apply reverse_Permutation.
  assert (H2 : full_night_summary ∈ aggregate_daily_sleep (reverse full_night)).
  { vm_compute. constructor. }
  assert (H3 : full_night_summary ∈ aggregate_daily_sleep full_night).
  { vm_compute. constructor. }
  split; [exact H1|]. split; [exact H2|]. split; [exact H3|].
  destruct (bedtime_wake_time_order_independent _ _ _ _ H1 H2 H3 eq_refl) as [Hb Hw].
  split; [exact (eq_trans Hb eq_refl) | exact (eq_trans Hw eq_refl)].
Defined.

(** ** Filling the rows *)

(** X7: a row is filled, side by side, from the last summary of its date in
    each input: a later summary of a date replaces an earlier one, and a
    side without a summary of the date is blank. *)
Theorem generate_spreadsheet_last_summary_wins
    (sleep_data : list DailySleep) (heart_data : list DailyHeart) (row : CombinedRow) :
  row ∈ generate_spreadsheet sleep_data heart_data →
  row_sleep row =
    from_option sleep_cells blank_sleep (last (group_of d_date (row_date row) sleep_data)) ∧
  row_heart row =
    from_option heart_cells blank_heart (last (group_of h_date (row_date row) heart_data)).
Proof.
  intros Hrow. pose proof (generate_spreadsheet_row _ _ _ Hrow) as E.
  rewrite (f_equal row_sleep E), (f_equal row_heart E). simpl.
  by rewrite !by_date_lookup.
Qed.

Lemma later_summary_replaces_earlier :
  (∃ row, row ∈ generate_spreadsheet [early_summary; full_night_summary] [] ∧
          row_date row = ymd2ord 2024 1 5) ∧
  ∀ row, row ∈ generate_spreadsheet [early_summary; full_night_summary] [] →
         row_sleep row = sleep_cells full_night_summary ∧ row_heart row = blank_heart.
Proof.
  split.
  - eexists. split; [vm_compute; constructor | reflexivity].
  - intros row Hrow.
    destruct (generate_spreadsheet_last_summary_wins _ _ _ Hrow) as [Hs Hh].
    assert (Hd : row_date row = ymd2ord 2024 1 5).
    { apply (list_elem_of_fmap_2 row_date) in Hrow.
      rewrite generate_spreadsheet_dates in Hrow.
      apply sorted_elements_spec in Hrow.
      apply elem_of_union in Hrow as [Hrow|Hrow];
        apply elem_of_list_to_set in Hrow; simpl in Hrow.
      - apply elem_of_cons in Hrow as [->|Hrow]; [done|].
        by apply list_elem_of_singleton in Hrow.
      - destruct (not_elem_of_nil _ Hrow). }
    rewrite Hd in Hs, Hh. split; [exact Hs | exact Hh].
Defined.

(** ** The run, end to end *)

Lemma types_distinct :
  HEART_RATE ≠ SLEEP_ANALYSIS ∧ RESTING_HEART_RATE ≠ SLEEP_ANALYSIS ∧
  HRV_SDNN ≠ SLEEP_ANALYSIS ∧ HEART_RATE ≠ RESTING_HEART_RATE ∧
  HEART_RATE ≠ HRV_SDNN ∧ RESTING_HEART_RATE ≠ HRV_SDNN.
Proof. repeat split; discriminate. Qed.

Lemma window_reading_sleep clk : window_reading clk SLEEP_ANALYSIS = Some (now_sleep clk).
Proof. reflexivity. Qed.
Lemma window_reading_heart_rate clk :
  window_reading clk HEART_RATE = Some (now_heart_rate clk).
Proof. reflexivity. Qed.
Lemma window_reading_resting clk :
  window_reading clk RESTING_HEART_RATE = Some (now_resting clk).
Proof. reflexivity. Qed.
Lemma window_reading_hrv clk : window_reading clk HRV_SDNN = Some (now_hrv clk).
Proof. reflexivity. Qed.

(** The types the run looks at, each with its reading of the clock. *)
Lemma window_reading_Some clk ty now :
  window_reading clk ty = Some now →
  (ty = SLEEP_ANALYSIS ∧ now = now_sleep clk) ∨
  (ty = HEART_RATE ∧ now = now_heart_rate clk) ∨
  (ty = RESTING_HEART_RATE ∧ now = now_resting clk) ∨
  (ty = HRV_SDNN ∧ now = now_hrv clk).
Proof.
  unfold window_reading, reading. repeat case_decide; intros [= <-]; auto 10.
Qed.




Lemma sleep_kept_in_window now days c r s :
  cutoff_date now days = Ok c →
  (is_Some (sleep_kept c r) ∧ r_startDate r = Some s) ↔
  (r_startDate r = Some s ∧ in_window now days s ∧ is_Some (r_endDate r)).
Proof.
  intros Hc. apply cutoff_date_Ok in Hc. unfold in_window. split.
  - intros [[[s' e] Hk] Hs]. apply sleep_kept_Some in Hk as (Hs' & He & Hle).
    assert (s' = s) as -> by congruence.
    split; [done|]. split; [lia | by rewrite He].
  - intros (Hs & Hw & [e He]). split; [|done]. exists (s, e).
    apply sleep_kept_Some. repeat split; try done. lia.
Qed.

Lemma quantity_kept_in_window now days c r s :
  cutoff_date now days = Ok c →
  (is_Some (quantity_kept c r) ∧ r_startDate r = Some s) ↔
  (r_startDate r = Some s ∧ in_window now days s).
Proof.
  intros Hc. apply cutoff_date_Ok in Hc. unfold in_window. split.
  - intros [[s' Hk] Hs]. apply quantity_kept_Some in Hk as (Hs' & Hle).
    assert (s' = s) as -> by congruence. split; [done | lia].
  - intros (Hs & Hw). split; [|done]. exists s.
    apply quantity_kept_Some. split; [done | lia].
Qed.

(** The dates of the sessions are the dates of the kept sleep records. *)
Lemma process_sleep_data_session_dates now days root sessions d :
  process_sleep_data now days root = Ok sessions →
  d ∈ ss_date <$> sessions ↔
  ∃ r s, r ∈ root ∧ r_type r = SLEEP_ANALYSIS ∧ r_startDate r = Some s ∧
         in_window now days s ∧ is_Some (r_endDate r) ∧ date_of s = d.
Proof.
  intros H. apply process_sleep_data_Ok in H as (c & Hc & HF).
  rewrite list_elem_of_fmap. split.
  - intros (x & -> & Hx).
    destruct (Forall2_elem_of_r _ _ _ _ HF Hx) as (r & Hr & Hrx).
    apply list_elem_of_filter in Hr as [Hk Hr]. apply elem_of_findall in Hr as [Hr Hty].
    destruct Hrx as (s & e & v & Hs & He & _ & ->).
    destruct (proj1 (sleep_kept_in_window now days c r s Hc) (conj Hk Hs))
      as (_ & Hw & Hend).
    by exists r, s.
  - intros (r & s & Hr & Hty & Hs & Hw & Hend & <-).
    destruct (proj2 (sleep_kept_in_window now days c r s Hc)) as [Hk _]; [done|].
    assert (Hin : r ∈ filter (fun r => is_Some (sleep_kept c r))
                    (findall SLEEP_ANALYSIS root)).
    { apply list_elem_of_filter. split; [done|]. by apply elem_of_findall. }
    destruct (Forall2_elem_of_l _ _ _ _ HF Hin) as (x & Hx & (s' & e & v & Hs' & _ & _ & ->)).
    eexists. split; [|exact Hx]. simpl. congruence.
Qed.

(** The dates of the measurements are the dates of the kept records. *)
Lemma process_quantity_measurement_dates ty now days root measurements d :
  process_quantity ty now days root = Ok measurements →
  d ∈ m_date <$> measurements ↔
  ∃ r s, r ∈ root ∧ r_type r = ty ∧ r_startDate r = Some s ∧
         in_window now days s ∧ date_of s = d.
Proof.
  intros H. apply process_quantity_Ok in H as (c & Hc & HF).
  rewrite list_elem_of_fmap. split.
  - intros (m & -> & Hm).
    destruct (Forall2_elem_of_r _ _ _ _ HF Hm) as (r & Hr & Hrm).
    apply list_elem_of_filter in Hr as [Hk Hr]. apply elem_of_findall in Hr as [Hr Hty].
    destruct Hrm as (s & x & Hs & _ & ->).
    destruct (proj1 (quantity_kept_in_window now days c r s Hc) (conj Hk Hs)) as (_ & Hw).
    by exists r, s.
  - intros (r & s & Hr & Hty & Hs & Hw & <-).
    destruct (proj2 (quantity_kept_in_window now days c r s Hc)) as [Hk _]; [done|].
    assert (Hin : r ∈ filter (fun r => is_Some (quantity_kept c r)) (findall ty root)).
    { apply list_elem_of_filter. split; [done|]. by apply elem_of_findall. }
    destruct (Forall2_elem_of_l _ _ _ _ HF Hin) as (m & Hm & (s' & x & Hs' & _ & ->)).
    eexists. split; [|exact Hm]. simpl. congruence.
Qed.

Lemma kept_in_window_cases clk days r s :
  kept_in_window clk days r s ↔
  r_startDate r = Some s ∧
  ((r_type r = SLEEP_ANALYSIS ∧ in_window (now_sleep clk) days s ∧ is_Some (r_endDate r)) ∨
   (r_type r = HEART_RATE ∧ in_window (now_heart_rate clk) days s) ∨
   (r_type r = RESTING_HEART_RATE ∧ in_window (now_resting clk) days s) ∨
   (r_type r = HRV_SDNN ∧ in_window (now_hrv clk) days s)).
Proof.
  destruct types_distinct as (T1 & T2 & T3 & _).
  unfold kept_in_window. split.
  - intros (Hs & (now & Hread & Hw) & Hend). split; [done|].
    apply window_reading_Some in Hread as [[Hty ->]|[[Hty ->]|[[Hty ->]|[Hty ->]]]];
      auto 10.
  - intros (Hs & [(Hty & Hw & Hend)|[(Hty & Hw)|[(Hty & Hw)|(Hty & Hw)]]]);
      (split; [done|]); rewrite Hty.
    + split; [|done]. by exists (now_sleep clk).
    + split; [|done]. by exists (now_heart_rate clk).
    + split; [|done]. by exists (now_resting clk).
    + split; [|done]. by exists (now_hrv clk).
Qed.

(** The dates of the rows of a run are the dates of the kept records. *)
Lemma main_row_dates_kept clk days root rows d :
  main clk days root = Ok rows →
  d ∈ row_date <$> rows ↔
  ∃ r s, r ∈ root ∧ kept_in_window clk days r s ∧ date_of s = d.
Proof.
  intros H. apply main_Ok in H as (ss & hr & rh & hv & Hss & Hhr & Hrh & Hhv & ->).
  rewrite generate_spreadsheet_dates.
  rewrite (proj1 (proj2 (sorted_elements_spec _)) d).
  rewrite elem_of_union, !elem_of_list_to_set.
  rewrite aggregate_daily_sleep_dates, aggregate_daily_heart_data_dates.
  rewrite !fmap_app, !elem_of_app.
  rewrite (process_sleep_data_session_dates _ _ _ _ d Hss).
  rewrite (process_quantity_measurement_dates _ _ _ _ _ d Hhr).
  rewrite (process_quantity_measurement_dates _ _ _ _ _ d Hrh).
  rewrite (process_quantity_measurement_dates _ _ _ _ _ d Hhv).
  split.
  - intros [(r & s & Hr & Hty & Hs & Hw & He & Hd)
           |[(r & s & Hr & Hty & Hs & Hw & Hd)
            |[(r & s & Hr & Hty & Hs & Hw & Hd)|(r & s & Hr & Hty & Hs & Hw & Hd)]]];
      exists r, s; (split; [done|]); (split; [|done]);
      apply kept_in_window_cases; (split; [done|]); auto 10.
  - intros (r & s & Hr & Hk & Hd). apply kept_in_window_cases in Hk as (Hs & Hk).
    destruct Hk as [(Hty & Hw & He)|[(Hty & Hw)|[(Hty & Hw)|(Hty & Hw)]]].
    + left. by exists r, s.
    + right; left. by exists r, s.
    + right; right; left. by exists r, s.
    + right; right; right. by exists r, s.
Qed.


(** X9: the rows of a run are in strictly ascending order of date and their
    dates are exactly the dates of the starts of the records the filters
    keep: no kept record is left without a row and no row has another date;
    the table is empty exactly when no record is kept. *)
Theorem main_rows_are_the_kept_dates
    (clk : Clock) (days : Z) (root : list XmlRecord) (rows : list CombinedRow) :
  main clk days root = Ok rows →
  StronglySorted Z.lt (row_date <$> rows) ∧
  (∀ d, d ∈ row_date <$> rows ↔
        ∃ r s, r ∈ root ∧ kept_in_window clk days r s ∧ date_of s = d) ∧
  (rows = [] ↔ ∀ r s, r ∈ root → ¬ kept_in_window clk days r s).
Proof.
  intros H.
  assert (Hdates : ∀ d, d ∈ row_date <$> rows ↔
            ∃ r s, r ∈ root ∧ kept_in_window clk days r s ∧ date_of s = d).
  { intros d. by apply main_row_dates_kept. }
  split; [|split; [done|]].
  - apply main_Ok in H as (ss & hr & rh & hv & _ & _ & _ & _ & ->).
    rewrite generate_spreadsheet_dates. apply sorted_elements_spec.
  - split.
    + intros -> r s Hr Hk.
      assert (Hin : date_of s ∈ row_date <$> @nil CombinedRow).
      { apply Hdates. by exists r, s. }
      destruct (not_elem_of_nil _ Hin).
    + intros Hnone. destruct rows as [|row rows]; [done|].
      assert (Hin : row_date row ∈ row_date <$> row :: rows) by (simpl; left).
      apply Hdates in Hin as (r & s & Hr & Hk & _). destruct (Hnone r s Hr Hk).
Qed.

Lemma boundary_rows_are_the_kept_dates :
  main (frozen boundary_now) 30 boundary_records
    = Ok [good_heart_rate_row; boundary_sleep_row] ∧
  StronglySorted Z.lt [ymd2ord 2024 1 5; ymd2ord 2024 1 20] ∧
  (∃ r s, r ∈ boundary_records ∧ kept_in_window (frozen boundary_now) 30 r s ∧
          date_of s = ymd2ord 2024 1 5).
Proof.
  assert (H : main (frozen boundary_now) 30 boundary_records
              = Ok [good_heart_rate_row; boundary_sleep_row])
    by (vm_compute; reflexivity).
  split; [exact H|].
  destruct (main_rows_are_the_kept_dates _ _ _ _ H) as (Hsorted & Hdates & _).
  split; [exact Hsorted|].
  apply (Hdates (ymd2ord 2024 1 5)). left.
Defined.

(** ** A longer window *)

Lemma before_mono s c c' : c' <= c → before s c' = true → before s c = true.
Proof. unfold before. rewrite !Z.ltb_lt. lia. Qed.

Lemma sleep_loop_mono c c' records a b :
  c' <= c → sleep_loop c records = Ok a → sleep_loop c' records = Ok b →
  a `sublist_of` b.
Proof.
  intros Hle. revert a b. induction records as [|r records IH]; intros a b; simpl.
  - by intros [= <-] [= <-].
  - destruct (r_startDate r) as [s|]; [|by apply IH].
    destruct (r_endDate r) as [e|]; [|by apply IH].
    destruct (before s c') eqn:Hb'.
    { rewrite (before_mono s c c' Hle Hb'). by apply IH. }
    destruct (attr_text (r_value r)) as [v|].
    2:{ by destruct (before s c). }
    destruct (sleep_loop c' records) as [b'|]; [|by destruct (before s c)].
    simpl. intros Ha [= <-]. destruct (before s c).
    + apply sublist_cons. by apply IH.
    + destruct (sleep_loop c records) as [a'|]; [|done]. simpl in Ha.
      injection Ha as <-. apply sublist_skip. by apply IH.
Qed.

Lemma quantity_loop_mono c c' records a b :
  c' <= c → quantity_loop c records = Ok a → quantity_loop c' records = Ok b →
  a `sublist_of` b.
Proof.
  intros Hle. revert a b. induction records as [|r records IH]; intros a b; simpl.
  - by intros [= <-] [= <-].
  - destruct (r_startDate r) as [s|]; [|by apply IH].
    destruct (before s c') eqn:Hb'.
    { rewrite (before_mono s c c' Hle Hb'). by apply IH. }
    destruct (py_float (r_value r)) as [x|].
    2:{ by destruct (before s c). }
    simpl. destruct (quantity_loop c' records) as [b'|]; [|by destruct (before s c)].
    simpl. intros Ha [= <-]. destruct (before s c).
    + apply sublist_cons. by apply IH.
    + destruct (quantity_loop c records) as [a'|]; [|done]. simpl in Ha.
      injection Ha as <-. apply sublist_skip. by apply IH.
Qed.

Lemma cutoff_date_mono now days days' c c' :
  days <= days' → cutoff_date now days = Ok c → cutoff_date now days' = Ok c' → c' <= c.
Proof.
  intros Hle Hc Hc'. apply cutoff_date_Ok in Hc, Hc'. subst.
  unfold SECONDS_PER_DAY, US_PER_SECOND. lia.
Qed.

(** X10: looking further back never loses a record: when an extractor returns
    for [days] days and for [days'] >= [days] days at the same reading of the
    clock, what it returns for the shorter window is a sublist, in the same
    order, of what it returns for the longer one. *)
Theorem longer_window_keeps_more (now : Z) (days days' : Z) (root : list XmlRecord) :
  days <= days' →
  (∀ a b, process_sleep_data now days root = Ok a →
          process_sleep_data now days' root = Ok b → a `sublist_of` b) ∧
  (∀ ty a b, process_quantity ty now days root = Ok a →
             process_quantity ty now days' root = Ok b → a `sublist_of` b).
Proof.
  intros Hle. split.
  - intros a b. unfold process_sleep_data.
    destruct (cutoff_date now days) as [c|] eqn:Hc; [|done].
    destruct (cutoff_date now days') as [c'|] eqn:Hc'; [|done]. simpl.
    apply sleep_loop_mono. by eapply cutoff_date_mono.
  - intros ty a b. unfold process_quantity.
    destruct (cutoff_date now days) as [c|] eqn:Hc; [|done].
    destruct (cutoff_date now days') as [c'|] eqn:Hc'; [|done]. simpl.
    apply quantity_loop_mono. by eapply cutoff_date_mono.
Qed.

Lemma week_within_month :
  7 <= 30 ∧
  process_sleep_data nap_now 7 (scenario_records ++ [nap_record]) = Ok [nap_session] ∧
  process_sleep_data nap_now 30 (scenario_records ++ [nap_record])
    = Ok (scenario_sessions ++ [nap_session]) ∧
  [nap_session] `sublist_of` scenario_sessions ++ [nap_session].
Proof.
  assert (H0 : 7 <= 30) by (vm_compute; discriminate).
  assert (H1 : process_sleep_data nap_now 7 (scenario_records ++ [nap_record])
               = Ok [nap_session]) by (vm_compute; reflexivity).
  assert (H2 : process_sleep_data nap_now 30 (scenario_records ++ [nap_record])
               = Ok (scenario_sessions ++ [nap_session])) by (vm_compute; reflexivity).
  split; [exact H0|]. split; [exact H1|]. split; [exact H2|].
  destruct (longer_window_keeps_more nap_now 7 30 (scenario_records ++ [nap_record]) H0)
    as [Hs _].
  exact (Hs _ _ H1 H2).
Defined.

(** ** Texts *)

Lemma prefix_app (p s : string) : String.prefix p (p +:+ s) = true.
Proof.
  induction p as [|c p IH]; simpl; [by destruct s|].
  destruct (Ascii.ascii_dec c c) as [_|Hne]; [done | by destruct Hne].
Qed.

Lemma contains_cons sep c s :
  contains sep (String c s) = String.prefix sep (String c s) || contains sep s.
Proof. reflexivity. Qed.

Lemma contains_cons_false sep c s :
  contains sep (String c s) = false →
  String.prefix sep (String c s) = false ∧ contains sep s = false.
Proof. rewrite contains_cons. apply orb_false_elim. Qed.

Lemma remove_go_cons pat c s :
  remove_go pat 0 (String c s) =
    if String.prefix pat (String c s)
    then remove_go pat (Nat.pred (String.length pat)) s
    else String c (remove_go pat 0 s).
Proof. reflexivity. Qed.

Lemma before_first_cons sep c s :
  before_first sep (String c s) =
    if String.prefix sep (String c s) then EmptyString
    else String c (before_first sep s).
Proof. reflexivity. Qed.

(** A text without the pattern is left as it is. *)
Lemma remove_go_none pat s : contains pat s = false → remove_go pat 0 s = s.
Proof.
  induction s as [|c s IH]; [done|]. intros H.
  apply contains_cons_false in H as [Hp Hc].
  rewrite remove_go_cons, Hp. f_equal. by apply IH.
Qed.

(** The characters of a matched occurrence are dropped. *)
Lemma remove_go_skip pat t s :
  remove_go pat (String.length t) (t +:+ s) = remove_go pat 0 s.
Proof. induction t as [|c t IH]; [done | exact IH]. Qed.

Lemma str_remove_prefix c p s :
  str_remove (String c p) (String c p +:+ s) = str_remove (String c p) s.
Proof.
  unfold str_remove.
  change (String c p +:+ s) with (String c (p +:+ s)).
  rewrite remove_go_cons.
  change (String c (p +:+ s)) with (String c p +:+ s).
  rewrite prefix_app. apply remove_go_skip.
Qed.

(** What stands before the first occurrence of a separator. *)
Lemma before_first_none sep s : contains sep s = false → before_first sep s = s.
Proof.
  induction s as [|c s IH]; [done|]. intros H.
  apply contains_cons_false in H as [Hp Hc].
  rewrite before_first_cons, Hp. f_equal. by apply IH.
Qed.

Lemma before_first_two (c1 c2 : Ascii.ascii) (body rest : string) :
  c1 ≠ c2 →
  contains (String c1 (String c2 EmptyString)) body = false →
  before_first (String c1 (String c2 EmptyString))
    (body +:+ String c1 (String c2 EmptyString) +:+ rest) = body.
Proof.
  intros Hne. set (sep := String c1 (String c2 EmptyString)).
  induction body as [|c body IH]; intros H.
  - change (EmptyString +:+ sep +:+ rest) with (sep +:+ rest).
    assert (Hp : String.prefix sep (sep +:+ rest) = true) by apply prefix_app.
    change (sep +:+ rest) with (String c1 (String c2 rest)) in *.
    by rewrite before_first_cons, Hp.
  - apply contains_cons_false in H as [Hp Hc].
    change (String c body +:+ sep +:+ rest) with (String c (body +:+ sep +:+ rest)).
    rewrite before_first_cons.
    assert (Hp' : String.prefix sep (String c (body +:+ sep +:+ rest)) = false).
    { clear IH Hc. subst sep. simpl in *.
      destruct (Ascii.ascii_dec c1 c) as [E|]; [|done].
      destruct body as [|c' body]; simpl in *.
      - destruct (Ascii.ascii_dec c2 c1) as [E2|]; [|done].
        destruct Hne. by rewrite E2.
      - destruct (Ascii.ascii_dec c2 c') as [E2|]; [|done].
        by destruct body. }
    rewrite Hp'. f_equal. by apply IH.
Qed.

(** X11: the type of a session is the value of its record without the
    category prefix: for every label in which the prefix text does not
    occur, the value made of the prefix and the label gives the label, and
    the bare label gives itself. *)
Theorem stage_label_without_prefix (st en : Z) (label source : string) :
  contains "HKCategoryValueSleepAnalysis" label = false →
  ss_type (sleep_session st en ("HKCategoryValueSleepAnalysis" +:+ label) source) = label ∧
  ss_type (sleep_session st en label source) = label.
Proof.
  intros H. unfold sleep_session; simpl ss_type. split.
  - rewrite str_remove_prefix. by apply remove_go_none.
  - by apply remove_go_none.
Qed.

Lemma stage_label_asleep_core :
  contains "HKCategoryValueSleepAnalysis" "AsleepCore" = false ∧
  ss_type (sleep_session 0 60 "HKCategoryValueSleepAnalysisAsleepCore" "Watch")
    = "AsleepCore".
Proof.
  assert (H : contains "HKCategoryValueSleepAnalysis" "AsleepCore" = false)
    by reflexivity.
  split; [exact H|].
  exact (proj1 (stage_label_without_prefix 0 60 "AsleepCore" "Watch" H)).
Defined.

(** X12: [parse_date] drops the offset of a timestamp: a text followed by
    [" -"] or [" +"] and an offset is read as the text alone, so two
    timestamps that differ only in their offset give the same naive
    datetime; a missing attribute gives None. *)
Theorem parse_date_drops_offset
    (strptime : string → option Z) (body offset : string) :
  contains " -" body = false → contains " +" body = false →
  parse_date strptime (Some (body +:+ " -" +:+ offset)) = strptime body ∧
  parse_date strptime (Some body) = strptime body ∧
  (contains " -" (body +:+ " +" +:+ offset) = false →
   parse_date strptime (Some (body +:+ " +" +:+ offset)) = strptime body) ∧
  parse_date strptime None = None.
Proof.
  intros Hm Hp. unfold parse_date. split; [|split; [|split; [|done]]].
  - rewrite before_first_two by done.
    by rewrite (before_first_none " +") by done.
  - rewrite (before_first_none " -") by done.
    by rewrite (before_first_none " +") by done.
  - intros Hm'. rewrite (before_first_none " -") by done.
    by rewrite before_first_two by done.
Qed.

Lemma parse_date_west_and_east :
  contains " -" "2024-12-21 23:45:30" = false ∧
  contains " +" "2024-12-21 23:45:30" = false ∧
  parse_date strptime_of_one (Some "2024-12-21 23:45:30 -0800")
    = Some (mk_datetime 2024 12 21 23 45 30) ∧
  parse_date strptime_of_one (Some "2024-12-21 23:45:30 +0100")
    = Some (mk_datetime 2024 12 21 23 45 30).
Proof.
  assert (H1 : contains " -" "2024-12-21 23:45:30" = false) by reflexivity.
  assert (H2 : contains " +" "2024-12-21 23:45:30" = false) by reflexivity.
  split; [exact H1|]. split; [exact H2|].
  destruct (parse_date_drops_offset strptime_of_one "2024-12-21 23:45:30" "0800" H1 H2)
    as (Hwest & _).
  destruct (parse_date_drops_offset strptime_of_one "2024-12-21 23:45:30" "0100" H1 H2)
    as (_ & _ & Heast & _).
  split; [exact Hwest|]. apply Heast. reflexivity.
Defined.

(** ** The archive *)

Lemma filter_head_inv {A} (P : A → Prop) `{!∀ x, Decision (P x)} (l : list A) x rest :
  filter P l = x :: rest →
  ∃ l1 l2, l = l1 ++ x :: l2 ∧ P x ∧ ∀ y, y ∈ l1 → ¬ P y.
Proof.
  induction l as [|a l IH]; [done|]. rewrite filter_cons.
  destruct (decide (P a)) as [Ha|Ha].
  - intros [= -> _]. exists [], l. split; [done|]. split; [done|].
    intros y Hy. destruct (not_elem_of_nil _ Hy).
  - intros Hf. destruct (IH Hf) as (l1 & l2 & -> & Hx & Hl1).
    exists (a :: l1), l2. split; [done|]. split; [done|].
    intros y Hy. apply elem_of_cons in Hy as [->|Hy]; [done | by apply Hl1].
Qed.

Lemma filter_head {A} (P : A → Prop) `{!∀ x, Decision (P x)} (l1 l2 : list A) x :
  P x → (∀ y, y ∈ l1 → ¬ P y) →
  filter P (l1 ++ x :: l2) = x :: filter P l2.
Proof.
  intros Hx Hl1. rewrite filter_app, filter_cons_True by done.
  assert (filter P l1 = []) as ->; [|done].
  induction l1 as [|a l1 IH]; [done|].
  rewrite filter_cons_False by (apply Hl1; left).
  apply IH. intros y Hy. apply Hl1. by right.
Qed.

(** X13: [extract_export_xml] returns the first name of the archive, in
    archive order, that ends with [export.xml], whatever stands before this
    ending; it raises ValueError exactly when no name ends so. *)
Theorem extract_export_xml_first_match (namelist : list string) :
  (∀ p, extract_export_xml namelist = Ok p ↔
        ∃ l1 l2, namelist = l1 ++ p :: l2 ∧ endswith "export.xml" p = true ∧
                 ∀ f, f ∈ l1 → endswith "export.xml" f = false) ∧
  (∀ e, extract_export_xml namelist = Raise e ↔
        e = ValueError ∧ ∀ f, f ∈ namelist → endswith "export.xml" f = false).
Proof.
  unfold extract_export_xml. split.
  - intros p. split.
    + destruct (filter _ namelist) as [|x rest] eqn:E; [done|]. intros [= ->].
      destruct (filter_head_inv _ _ _ _ E) as (l1 & l2 & -> & Hp & Hl1).
      exists l1, l2. split; [done|]. split; [done|].
      intros f Hf. apply not_true_is_false. by apply Hl1.
    + intros (l1 & l2 & -> & Hp & Hl1).
      rewrite (filter_head (fun f => endswith "export.xml" f = true)); [done..|].
      intros y Hy. rewrite (Hl1 y Hy). done.
  - intros e. destruct (filter _ namelist) as [|x rest] eqn:E.
    + split.
      * intros [= <-]. split; [done|]. intros f Hf. apply not_true_is_false.
        intros Hend.
        assert (Hin : f ∈ filter (fun f => endswith "export.xml" f = true) namelist)
          by (by apply list_elem_of_filter).
        rewrite E in Hin. destruct (not_elem_of_nil _ Hin).
      * by intros [-> _].
    + split; [done|]. intros [_ Hall].
      destruct (filter_head_inv _ _ _ _ E) as (l1 & l2 & -> & Hp & _).
      rewrite Hall in Hp; [done|]. apply elem_of_app. right. left.
Qed.

(** ** Blank sides *)

Lemma sleep_cells_not_blank s : sleep_cells s ≠ blank_sleep.
Proof. discriminate. Qed.

Lemma heart_cells_not_blank h : heart_cells h ≠ blank_heart.
Proof. discriminate. Qed.

Lemma row_sleep_blank_iff sleep_data heart_data row :
  row ∈ generate_spreadsheet sleep_data heart_data →
  row_sleep row = blank_sleep ↔ row_date row ∉ d_date <$> sleep_data.
Proof.
  intros Hrow. pose proof (generate_spreadsheet_row _ _ _ Hrow) as E.
  rewrite (f_equal row_sleep E). simpl.
  rewrite <- (by_date_lookup_None d_date).
  destruct (by_date d_date sleep_data !! row_date row) as [s|]; simpl; [|done].
  split; [intros H; by destruct (sleep_cells_not_blank s) | done].
Qed.

Lemma row_heart_blank_iff sleep_data heart_data row :
  row ∈ generate_spreadsheet sleep_data heart_data →
  row_heart row = blank_heart ↔ row_date row ∉ h_date <$> heart_data.
Proof.
  intros Hrow. pose proof (generate_spreadsheet_row _ _ _ Hrow) as E.
  rewrite (f_equal row_heart E). simpl.
  rewrite <- (by_date_lookup_None h_date).
  destruct (by_date h_date heart_data !! row_date row) as [h|]; simpl; [|done].
  split; [intros H; by destruct (heart_cells_not_blank h) | done].
Qed.

(** X14: in the rows of a run, the sleep side of a row is blank exactly when
    no sleep record starting on the date of the row is kept, and the cardiac
    side is blank exactly when no cardiac record starting on that date is
    kept. *)
Theorem main_blank_sides
    (clk : Clock) (days : Z) (root : list XmlRecord) (rows : list CombinedRow)
    (row : CombinedRow) :
  main clk days root = Ok rows → row ∈ rows →
  (row_sleep row = blank_sleep ↔
   ∀ r s, r ∈ root → kept_in_window clk days r s → date_of s = row_date row →
          r_type r ≠ SLEEP_ANALYSIS) ∧
  (row_heart row = blank_heart ↔
   ∀ r s, r ∈ root → kept_in_window clk days r s → date_of s = row_date row →
          r_type r = SLEEP_ANALYSIS).
Proof.
  destruct types_distinct as (T1 & T2 & T3 & _).
  intros H Hrow. apply main_Ok in H as (ss & hr & rh & hv & Hss & Hhr & Hrh & Hhv & ->).
  rewrite (row_sleep_blank_iff _ _ _ Hrow), (row_heart_blank_iff _ _ _ Hrow).
  rewrite aggregate_daily_sleep_dates, aggregate_daily_heart_data_dates.
  rewrite !fmap_app, !elem_of_app.
  rewrite (process_sleep_data_session_dates _ _ _ _ (row_date row) Hss).
  rewrite (process_quantity_measurement_dates _ _ _ _ _ (row_date row) Hhr).
  rewrite (process_quantity_measurement_dates _ _ _ _ _ (row_date row) Hrh).
  rewrite (process_quantity_measurement_dates _ _ _ _ _ (row_date row) Hhv).
  split; split.
  - intros Hnone r s Hr Hk Hd Hty. apply Hnone.
    apply kept_in_window_cases in Hk as (Hs & Hk).
    destruct Hk as [(_ & Hw & He)|[(Hty' & _)|[(Hty' & _)|(Hty' & _)]]];
      [by exists r, s | congruence..].
  - intros Hall (r & s & Hr & Hty & Hs & Hw & He & Hd).
    apply (Hall r s Hr); [|done..]. apply kept_in_window_cases. split; [done|]. by left.
  - intros Hnone r s Hr Hk Hd.
    apply kept_in_window_cases in Hk as (Hs & Hk).
    destruct Hk as [(Hty & _)|[(Hty & Hw)|[(Hty & Hw)|(Hty & Hw)]]]; [done|..];
      destruct Hnone; [left|right; left|right; right]; by exists r, s.
  - intros Hall [(r & s & Hr & Hty & Hs & Hw & Hd)
                |[(r & s & Hr & Hty & Hs & Hw & Hd)|(r & s & Hr & Hty & Hs & Hw & Hd)]];
      (assert (Hk : kept_in_window clk days r s)
         by (apply kept_in_window_cases; split; [done|]; auto 10));
      pose proof (Hall r s Hr Hk Hd); congruence.
Qed.

Lemma boundary_rows_blank_sides :
  main (frozen boundary_now) 30 boundary_records
    = Ok [good_heart_rate_row; boundary_sleep_row] ∧
  good_heart_rate_row ∈ [good_heart_rate_row; boundary_sleep_row] ∧
  row_sleep good_heart_rate_row = blank_sleep ∧
  ∀ r s, r ∈ boundary_records → kept_in_window (frozen boundary_now) 30 r s →
         date_of s = ymd2ord 2024 1 5 → r_type r ≠ SLEEP_ANALYSIS.
Proof.
  assert (H : main (frozen boundary_now) 30 boundary_records
              = Ok [good_heart_rate_row; boundary_sleep_row])
    by (vm_compute; reflexivity).
  assert (Hin : good_heart_rate_row ∈ [good_heart_rate_row; boundary_sleep_row])
    by left.
  split; [exact H|]. split; [exact Hin|]. split; [reflexivity|].
  destruct (main_blank_sides _ _ _ _ _ H Hin) as [Hsleep _].
  apply Hsleep. reflexivity.
Defined.
